(** * Event handlers of the social feed views

    A shallow embedding of the four view components of the application
    (Feed, Profile, CreatePost and PostCard) and of the properties their
    specification states about them.

    The components are React function components.  Their logic consists of
    asynchronous handlers that read the values captured by the render in
    which they were created, issue awaited calls to the remote data client,
    and write the component state through setters.  The embedding keeps
    these three ingredients apart:

    - the values a handler reads ([isLiked], [currentUser], [content], ...)
      come from the render that created it, passed as the argument [render];
    - the setters write the live component state, field [ui] of the world;
    - an awaited call is logged, then answered by the remote store, or by
      the next scheduled fault of the network.

    The counters are JavaScript numbers holding integers; they are modelled
    by [Z], which is exact below 2^53. *)

From Stdlib Require Import ZArith NArith List String DecimalString Bool Lia.
Import ListNotations.

Set Implicit Arguments.

(** ** JavaScript values *)

Module Js.

(** Free text typed by the user, as UTF-16 code units. *)
Definition text := list N.

(** The code units [String.prototype.trim] strips: WhiteSpace and
    LineTerminator of ECMAScript. *)
Definition is_ws (c : N) : bool :=
  ((9 <=? c) && (c <=? 13) || (c =? 32) || (c =? 160) || (c =? 5760)
   || (8192 <=? c) && (c <=? 8202) || (c =? 8232) || (c =? 8233)
   || (c =? 8239) || (c =? 8287) || (c =? 12288) || (c =? 65279))%N.

Fixpoint trim_start (s : text) : text :=
  match s with
  | c :: s' => if is_ws c then trim_start s' else s
  | [] => []
  end.

Definition trim (s : text) : text := rev (trim_start (rev (trim_start s))).

(** A text that is empty or made of whitespace only. *)
Definition blank (s : text) : bool := forallb is_ws s.

(** Truthiness of a string: every string but the empty one. *)
Definition truthy_text (s : text) : bool :=
  match s with [] => false | _ :: _ => true end.

Definition truthy_string (s : string) : bool :=
  match s with EmptyString => false | String _ _ => true end.

(** Truthiness of [string | undefined]. *)
Definition truthy (o : option string) : bool :=
  match o with Some s => truthy_string s | None => false end.

(** [!!data] for [data : object | null]. *)
Definition is_object {A} (o : option A) : bool :=
  match o with Some _ => true | None => false end.

(** A thrown or returned failure: only its [message] is ever read. *)
Record Error := { message : option string }.

(** [error.message || fallback]. *)
Definition message_or (e : Error) (fallback : string) : string :=
  match message e with
  | Some m => if truthy_string m then m else fallback
  | None => fallback
  end.

(** [rows?.length || 0]. *)
Definition length_or_0 {A} (rows : option (list A)) : Z :=
  match rows with Some l => Z.of_nat (List.length l) | None => 0%Z end.

(** [rows || []]. *)
Definition rows_or_empty {A} (rows : option (list A)) : list A :=
  match rows with Some l => l | None => [] end.

End Js.

Import Js.

(** ** Rows of the remote collections *)

Module ProfileRow.
Record t := { id : string; username : string; full_name : option string;
              avatar_url : option string; bio : option string }.
End ProfileRow.

Module PostRow.
Record t := { id : string; user_id : string; content : text;
              created_at : nat }.
End PostRow.

Module LikeRow.
Record t := { post_id : string; user_id : string }.
End LikeRow.

Module CommentRow.
Record t := { id : string; post_id : string; user_id : string;
              content : text; created_at : nat }.
End CommentRow.

Module FollowRow.
Record t := { follower_id : string; following_id : string }.
End FollowRow.

(** A row read with [select("*, profiles(...)")]: the row and the profile
    of its owner, when there is one. *)
Definition joined (A : Type) : Type := (A * option ProfileRow.t)%type.

Record Session := { session_user_id : string }.

(** The remote store: the session of the identity service and the five
    collections. [clock] stamps the rows the store creates. *)
Record Remote := {
  session : option Session;
  profiles : list ProfileRow.t;
  posts : list PostRow.t;
  likes : list LikeRow.t;
  comments : list CommentRow.t;
  follows : list FollowRow.t;
  clock : nat
}.

(** ** Requests, events and worlds *)

(** The calls the views make on the remote data client.  The target of
    the Profile view comes from the route, [string | undefined], and is
    passed on as it is. *)
Inductive request :=
| AuthGetSession
| AuthGetUser
| ProfilesSelectSingle (id : string)
| PostsSelectAll
| PostsSelectByUser (user_id : string)
| PostsInsert (user_id : string) (content : text)
| PostsDelete (id : string)
| LikesSelect (post_id : string)
| LikesSelectSingle (post_id user_id : string)
| LikesInsert (post_id user_id : string)
| LikesDelete (post_id user_id : string)
| CommentsSelect (post_id : string)
| CommentsInsert (post_id user_id : string) (content : text)
| FollowsSelectFollowers (following_id : string)
| FollowsSelectFollowing (follower_id : string)
| FollowsSelectSingle (follower_id following_id : string)
| FollowsInsert (follower_id : string) (following_id : option string)
| FollowsDelete (follower_id : string) (following_id : option string).

(** Reads of the five collections. *)
Definition is_data_load (r : request) : bool :=
  match r with
  | ProfilesSelectSingle _ | PostsSelectAll | PostsSelectByUser _
  | LikesSelect _ | LikesSelectSingle _ _ | CommentsSelect _
  | FollowsSelectFollowers _ | FollowsSelectFollowing _
  | FollowsSelectSingle _ _ => true
  | _ => false
  end.

(** Reads of the likes collection. *)
Definition is_likes_read (r : request) : bool :=
  match r with
  | LikesSelect _ | LikesSelectSingle _ _ => true
  | _ => false
  end.

(** What a handler does that can be observed from outside the component. *)
Inductive event :=
| Request (r : request)
| ToastError (msg : string)
| ToastSuccess (msg : string)
| Navigate (path : string)
| ConsoleError (label : string) (e : Error)
| PreventDefault
| Invoke (callback : string)
| UnhandledRejection (e : Error).

Definition is_toast_error (e : event) : bool :=
  match e with ToastError _ => true | _ => false end.

Definition requests (l : list event) : list request :=
  flat_map (fun e => match e with Request r => [r] | _ => [] end) l.

(** How an awaited call can fail: the promise rejects, so that [await]
    throws, or it resolves to a result whose [error] field is set. *)
Inductive fault :=
| Rejects (e : Error)
| Fails (e : Error).

(** The result object of a call: [{ data, error }]. *)
Record response (A : Type) := { data : option A; error : option Error }.

Definition ok {A} (a : A) : response A := {| data := Some a; error := None |}.
Definition failed {A} (e : Error) : response A :=
  {| data := None; error := Some e |}.

(** The world a handler runs in: the live state of its component, the
    remote store, the faults the network has in stock for the coming calls
    ([None] lets the call through to the store), and the events so far. *)
Record world (S : Type) := {
  ui : S;
  remote : Remote;
  net : list (option fault);
  log : list event
}.

Definition set_ui {S} (f : S -> S) (w : world S) : world S :=
  {| ui := f (ui w); remote := remote w; net := net w; log := log w |}.

Definition emit {S} (e : event) (w : world S) : world S :=
  {| ui := ui w; remote := remote w; net := net w; log := log w ++ [e] |}.

(** ** The handler monad *)

Inductive completion (A : Type) :=
| Normal (a : A)
| Thrown (e : Error).

Arguments Thrown {A} e.

Definition M (S A : Type) : Type := world S -> completion A * world S.

Definition ret {S A} (a : A) : M S A := fun w => (Normal a, w).

Definition bind {S A B} (m : M S A) (k : A -> M S B) : M S B :=
  fun w =>
    match m w with
    | (Normal a, w') => k a w'
    | (Thrown e, w') => (Thrown e, w')
    end.

Declare Scope handler_scope.
Delimit Scope handler_scope with handler.
Notation "x <- m ;; k" := (bind m (fun x => k))
  (at level 61, m at next level, right associativity) : handler_scope.
Notation "m ;; k" := (bind m (fun _ => k))
  (at level 61, right associativity) : handler_scope.
Open Scope handler_scope.

Definition throw {S A} (e : Error) : M S A := fun w => (Thrown e, w).

(** [try { body } catch (error) { handler error }]. *)
Definition try_catch {S A} (body : M S A) (handler : Error -> M S A) : M S A :=
  fun w =>
    match body w with
    | (Normal a, w') => (Normal a, w')
    | (Thrown e, w') => handler e w'
    end.

(** [try { body } finally { cleanup }]. *)
Definition try_finally {S A} (body : M S A) (cleanup : M S unit) : M S A :=
  fun w =>
    match body w with
    | (c, w') =>
        match cleanup w' with
        | (Normal _, w'') => (c, w'')
        | (Thrown e, w'') => (Thrown e, w'')
        end
    end.

Definition update {S} (f : S -> S) : M S unit :=
  fun w => (Normal tt, set_ui f w).

Definition tell {S} (e : event) : M S unit :=
  fun w => (Normal tt, emit e w).

Definition toast_error {S} (msg : string) : M S unit := tell (ToastError msg).
Definition toast_success {S} (msg : string) : M S unit :=
  tell (ToastSuccess msg).
Definition navigate {S} (path : string) : M S unit := tell (Navigate path).
Definition console_error {S} (label : string) (e : Error) : M S unit :=
  tell (ConsoleError label e).

(** A call of an [async] function that is not awaited.  A failure in it
    does not reach the caller.  The callee is run to its end at the point of
    the call: how its continuation interleaves with what the caller does
    next is not modelled.  In the handlers below the caller reads nothing
    the callee writes, and writes none of the fields the callee writes. *)
Definition spawn {S} (p : M S unit) : M S unit :=
  fun w =>
    match p w with
    | (Normal _, w') => (Normal tt, w')
    | (Thrown e, w') => (Normal tt, emit (UnhandledRejection e) w')
    end.

(** An awaited call: the request is logged; the next fault of the network,
    if any, decides the failure, and otherwise the store serves it. *)
Definition await {S A} (r : request) (serve : Remote -> response A * Remote)
  : M S (response A) :=
  fun w =>
    let w1 := emit (Request r) w in
    match net w with
    | Some (Rejects e) :: n =>
        (Thrown e,
         {| ui := ui w1; remote := remote w1; net := n; log := log w1 |})
    | Some (Fails e) :: n =>
        (Normal (failed e),
         {| ui := ui w1; remote := remote w1; net := n; log := log w1 |})
    | None :: n =>
        let (res, rem) := serve (remote w) in
        (Normal res, {| ui := ui w1; remote := rem; net := n; log := log w1 |})
    | [] =>
        let (res, rem) := serve (remote w) in
        (Normal res, {| ui := ui w1; remote := rem; net := []; log := log w1 |})
    end.

(** ** The remote store *)

(** Modelled from the spec: the hosted backend and the generated client
    through which the views reach it ([@/integrations/supabase/client]) are
    not part of the sources.  The store answers the queries of section 6 of
    the specification on the collections of section 3: a read filters the
    rows, [single] succeeds on exactly one row, an insertion adds a row
    unless it would repeat the composite identity of a like or of a follow,
    a deletion removes the rows that match. *)
Module Store.

Local Open Scope string_scope.

Definition like_is (post_id user_id : string) (l : LikeRow.t) : bool :=
  String.eqb (LikeRow.post_id l) post_id
  && String.eqb (LikeRow.user_id l) user_id.

Definition like_on (post_id : string) (l : LikeRow.t) : bool :=
  String.eqb (LikeRow.post_id l) post_id.

Definition follow_is (follower_id following_id : string) (f : FollowRow.t)
  : bool :=
  String.eqb (FollowRow.follower_id f) follower_id
  && String.eqb (FollowRow.following_id f) following_id.

Definition follow_of (following_id : string) (f : FollowRow.t) : bool :=
  String.eqb (FollowRow.following_id f) following_id.

Definition follow_by (follower_id : string) (f : FollowRow.t) : bool :=
  String.eqb (FollowRow.follower_id f) follower_id.

Definition no_rows : Error :=
  {| message := Some "JSON object requested, multiple (or no) rows returned" |}.
Definition duplicate_key : Error :=
  {| message := Some "duplicate key value violates unique constraint" |}.
Definition invalid_input : Error :=
  {| message := Some "invalid input syntax for type uuid" |}.

(** [.single()]: the row when exactly one matches. *)
Definition single {A} (rows : list A) : response A :=
  match rows with
  | [row] => ok row
  | _ => failed no_rows
  end.

Fixpoint insert_by {A} (key : A -> nat) (a : A) (l : list A) : list A :=
  match l with
  | [] => [a]
  | b :: l' =>
      if Nat.leb (key a) (key b) then a :: l else b :: insert_by key a l'
  end.

(** [.order("created_at", { ascending: true })]. *)
Definition ascending {A} (key : A -> nat) (l : list A) : list A :=
  fold_right (insert_by key) [] l.

(** [.order("created_at", { ascending: false })]. *)
Definition descending {A} (key : A -> nat) (l : list A) : list A :=
  rev (ascending key l).

Definition profile_of (r : Remote) (user_id : string) : option ProfileRow.t :=
  find (fun p => String.eqb (ProfileRow.id p) user_id) (profiles r).

Definition with_profile {A} (r : Remote) (owner : A -> string) (row : A)
  : joined A :=
  (row, profile_of r (owner row)).

Definition fresh_id (r : Remote) : string :=
  String.append "row-" (NilEmpty.string_of_uint (Nat.to_uint (clock r))).

Definition set_posts (r : Remote) (l : list PostRow.t) (c : nat) : Remote :=
  {| session := session r; profiles := profiles r; posts := l;
     likes := likes r; comments := comments r; follows := follows r;
     clock := c |}.

Definition set_likes (r : Remote) (l : list LikeRow.t) : Remote :=
  {| session := session r; profiles := profiles r; posts := posts r;
     likes := l; comments := comments r; follows := follows r;
     clock := clock r |}.

Definition set_comments (r : Remote) (l : list CommentRow.t) (c : nat)
  : Remote :=
  {| session := session r; profiles := profiles r; posts := posts r;
     likes := likes r; comments := l; follows := follows r; clock := c |}.

Definition set_follows (r : Remote) (l : list FollowRow.t) : Remote :=
  {| session := session r; profiles := profiles r; posts := posts r;
     likes := likes r; comments := comments r; follows := l;
     clock := clock r |}.

Definition get_session (r : Remote) : response (option Session) * Remote :=
  (ok (session r), r).

Definition get_user (r : Remote) : response (option Session) * Remote :=
  (ok (session r), r).

Definition profiles_select_single (id : string) (r : Remote)
  : response ProfileRow.t * Remote :=
  (single (filter (fun p => String.eqb (ProfileRow.id p) id) (profiles r)), r).

Definition posts_select_all (r : Remote)
  : response (list (joined PostRow.t)) * Remote :=
  (ok (map (with_profile r PostRow.user_id)
         (descending PostRow.created_at (posts r))), r).

Definition posts_select_by_user (user_id : string) (r : Remote)
  : response (list (joined PostRow.t)) * Remote :=
  (ok (map (with_profile r PostRow.user_id)
         (descending PostRow.created_at
            (filter (fun p => String.eqb (PostRow.user_id p) user_id)
               (posts r)))), r).

Definition posts_insert (user_id : string) (content : text) (r : Remote)
  : response unit * Remote :=
  (ok tt,
   set_posts r
     ((posts r ++ [{| PostRow.id := fresh_id r; PostRow.user_id := user_id;
                     PostRow.content := content;
                     PostRow.created_at := clock r |}])%list)
     (S (clock r))).

Definition posts_delete (id : string) (r : Remote) : response unit * Remote :=
  (ok tt,
   set_posts r
     (filter (fun p => negb (String.eqb (PostRow.id p) id)) (posts r))
     (clock r)).

Definition likes_select (post_id : string) (r : Remote)
  : response (list LikeRow.t) * Remote :=
  (ok (filter (like_on post_id) (likes r)), r).

Definition likes_select_single (post_id user_id : string) (r : Remote)
  : response LikeRow.t * Remote :=
  (single (filter (like_is post_id user_id) (likes r)), r).

Definition likes_insert (post_id user_id : string) (r : Remote)
  : response unit * Remote :=
  if existsb (like_is post_id user_id) (likes r)
  then (failed duplicate_key, r)
  else (ok tt,
        set_likes r
          ((likes r ++ [{| LikeRow.post_id := post_id;
                          LikeRow.user_id := user_id |}])%list)).

Definition likes_delete (post_id user_id : string) (r : Remote)
  : response unit * Remote :=
  (ok tt,
   set_likes r (filter (fun l => negb (like_is post_id user_id l)) (likes r))).

Definition comments_select (post_id : string) (r : Remote)
  : response (list (joined CommentRow.t)) * Remote :=
  (ok (map (with_profile r CommentRow.user_id)
         (ascending CommentRow.created_at
            (filter (fun c => String.eqb (CommentRow.post_id c) post_id)
               (comments r)))), r).

Definition comments_insert (post_id user_id : string) (content : text)
  (r : Remote) : response unit * Remote :=
  (ok tt,
   set_comments r
     ((comments r ++ [{| CommentRow.id := fresh_id r;
                        CommentRow.post_id := post_id;
                        CommentRow.user_id := user_id;
                        CommentRow.content := content;
                        CommentRow.created_at := clock r |}])%list)
     (S (clock r))).

Definition follows_select_followers (following_id : string) (r : Remote)
  : response (list FollowRow.t) * Remote :=
  (ok (filter (follow_of following_id) (follows r)), r).

Definition follows_select_following (follower_id : string) (r : Remote)
  : response (list FollowRow.t) * Remote :=
  (ok (filter (follow_by follower_id) (follows r)), r).

Definition follows_select_single (follower_id following_id : string)
  (r : Remote) : response FollowRow.t * Remote :=
  (single (filter (follow_is follower_id following_id) (follows r)), r).

(** The target of the route may be [undefined]; the store refuses it. *)
Definition follows_insert (follower_id : string)
  (following_id : option string) (r : Remote) : response unit * Remote :=
  match following_id with
  | None => (failed invalid_input, r)
  | Some target =>
      if existsb (follow_is follower_id target) (follows r)
      then (failed duplicate_key, r)
      else (ok tt,
            set_follows r
              ((follows r ++ [{| FollowRow.follower_id := follower_id;
                                FollowRow.following_id := target |}])%list))
  end.

Definition follows_delete (follower_id : string)
  (following_id : option string) (r : Remote) : response unit * Remote :=
  match following_id with
  | None => (failed invalid_input, r)
  | Some target =>
      (ok tt,
       set_follows r
         (filter (fun f => negb (follow_is follower_id target f))
            (follows r)))
  end.

End Store.

(** ** The data client, as the views call it *)

Module Client.
Section Calls.

Context {S : Type}.

(** [const { data: { session } } = await supabase.auth.getSession()];
  [data] is [{ session: null }] when the call fails. *)
Definition auth_getSession : M S (option Session) :=
res <- await AuthGetSession Store.get_session ;;
ret (match data res with Some s => s | None => None end).

(** [const { data: { user } } = await supabase.auth.getUser()]. *)
Definition auth_getUser : M S (option Session) :=
res <- await AuthGetUser Store.get_user ;;
ret (match data res with Some s => s | None => None end).

Definition profiles_select_single (id : string) : M S (response ProfileRow.t) :=
await (ProfilesSelectSingle id) (Store.profiles_select_single id).

Definition posts_select_all : M S (response (list (joined PostRow.t))) :=
await PostsSelectAll Store.posts_select_all.

Definition posts_select_by_user (user_id : string)
: M S (response (list (joined PostRow.t))) :=
await (PostsSelectByUser user_id) (Store.posts_select_by_user user_id).

Definition posts_insert (user_id : string) (content : text)
: M S (response unit) :=
await (PostsInsert user_id content) (Store.posts_insert user_id content).

Definition posts_delete (id : string) : M S (response unit) :=
await (PostsDelete id) (Store.posts_delete id).

Definition likes_select (post_id : string) : M S (response (list LikeRow.t)) :=
await (LikesSelect post_id) (Store.likes_select post_id).

Definition likes_select_single (post_id user_id : string)
: M S (response LikeRow.t) :=
await (LikesSelectSingle post_id user_id)
  (Store.likes_select_single post_id user_id).

Definition likes_insert (post_id user_id : string) : M S (response unit) :=
await (LikesInsert post_id user_id) (Store.likes_insert post_id user_id).

Definition likes_delete (post_id user_id : string) : M S (response unit) :=
await (LikesDelete post_id user_id) (Store.likes_delete post_id user_id).

Definition comments_select (post_id : string)
: M S (response (list (joined CommentRow.t))) :=
await (CommentsSelect post_id) (Store.comments_select post_id).

Definition comments_insert (post_id user_id : string) (content : text)
: M S (response unit) :=
await (CommentsInsert post_id user_id content)
  (Store.comments_insert post_id user_id content).

Definition follows_select_followers (following_id : string)
: M S (response (list FollowRow.t)) :=
await (FollowsSelectFollowers following_id)
  (Store.follows_select_followers following_id).

Definition follows_select_following (follower_id : string)
: M S (response (list FollowRow.t)) :=
await (FollowsSelectFollowing follower_id)
  (Store.follows_select_following follower_id).

Definition follows_select_single (follower_id following_id : string)
: M S (response FollowRow.t) :=
await (FollowsSelectSingle follower_id following_id)
  (Store.follows_select_single follower_id following_id).

Definition follows_insert (follower_id : string) (following_id : option string)
: M S (response unit) :=
await (FollowsInsert follower_id following_id)
  (Store.follows_insert follower_id following_id).

Definition follows_delete (follower_id : string) (following_id : option string)
: M S (response unit) :=
await (FollowsDelete follower_id following_id)
  (Store.follows_delete follower_id following_id).

(** [if (error) throw error]. *)
Definition throw_if_error {A} (res : response A) : M S unit :=
match error res with
| Some e => throw e
| None => ret tt
end.

End Calls.
End Client.

Import Client.

(** A string the guard [if (!s) return] has let through. *)
Definition narrowed (o : option string) : string :=
  match o with Some s => s | None => EmptyString end.

(** ** PostCard *)

Module PostCard.

Local Open Scope string_scope.

Record state := {
  isLiked : bool;
  likesCount : Z;
  commentsCount : Z;
  showComments : bool;
  comments : list (joined CommentRow.t);
  newComment : text;
  isLoadingComment : bool
}.

(** The [useState] initial values. *)
Definition initial : state :=
  {| isLiked := false; likesCount := 0; commentsCount := 0;
     showComments := false; comments := []; newComment := [];
     isLoadingComment := false |}.

Definition setIsLiked (b : bool) : M state unit :=
  update (fun s =>
    {| isLiked := b; likesCount := likesCount s;
       commentsCount := commentsCount s; showComments := showComments s;
       comments := comments s; newComment := newComment s;
       isLoadingComment := isLoadingComment s |}).

Definition setLikesCount (f : Z -> Z) : M state unit :=
  update (fun s =>
    {| isLiked := isLiked s; likesCount := f (likesCount s);
       commentsCount := commentsCount s; showComments := showComments s;
       comments := comments s; newComment := newComment s;
       isLoadingComment := isLoadingComment s |}).

Definition setCommentsCount (n : Z) : M state unit :=
  update (fun s =>
    {| isLiked := isLiked s; likesCount := likesCount s;
       commentsCount := n; showComments := showComments s;
       comments := comments s; newComment := newComment s;
       isLoadingComment := isLoadingComment s |}).

Definition setShowComments (b : bool) : M state unit :=
  update (fun s =>
    {| isLiked := isLiked s; likesCount := likesCount s;
       commentsCount := commentsCount s; showComments := b;
       comments := comments s; newComment := newComment s;
       isLoadingComment := isLoadingComment s |}).

Definition setComments (l : list (joined CommentRow.t)) : M state unit :=
  update (fun s =>
    {| isLiked := isLiked s; likesCount := likesCount s;
       commentsCount := commentsCount s; showComments := showComments s;
       comments := l; newComment := newComment s;
       isLoadingComment := isLoadingComment s |}).

Definition setNewComment (t : text) : M state unit :=
  update (fun s =>
    {| isLiked := isLiked s; likesCount := likesCount s;
       commentsCount := commentsCount s; showComments := showComments s;
       comments := comments s; newComment := t;
       isLoadingComment := isLoadingComment s |}).

Definition setIsLoadingComment (b : bool) : M state unit :=
  update (fun s =>
    {| isLiked := isLiked s; likesCount := likesCount s;
       commentsCount := commentsCount s; showComments := showComments s;
       comments := comments s; newComment := newComment s;
       isLoadingComment := b |}).

Section Render.

(** The props, and the state as the render saw it. *)
Variable post : joined PostRow.t.
Variable currentUserId : option string.
Variable render : state.

Let post_id : string := PostRow.id (fst post).

Definition fetchLikesAndComments : M state unit :=
  likes <- likes_select post_id ;;
  comments <- comments_select post_id ;;
  setLikesCount (fun _ => length_or_0 (data likes)) ;;
  setCommentsCount (length_or_0 (data comments)) ;;
  setComments (rows_or_empty (data comments)).

Definition checkIfLiked : M state unit :=
  if negb (truthy currentUserId) then ret tt
  else
    res <- likes_select_single post_id (narrowed currentUserId) ;;
    setIsLiked (is_object (data res)).

(** The effect on [post.id] and [currentUserId].  The two loaders write
    different fields of the state; their requests are served one loader
    after the other. *)
Definition effect : M state unit :=
  spawn fetchLikesAndComments ;;
  if truthy currentUserId then spawn checkIfLiked else ret tt.

Definition handleLike : M state unit :=
  if negb (truthy currentUserId)
  then toast_error "Please log in to like posts"
  else
    try_catch
      (if isLiked render
       then
         _ <- likes_delete post_id (narrowed currentUserId) ;;
         setIsLiked false ;;
         setLikesCount (fun prev => prev - 1)%Z
       else
         _ <- likes_insert post_id (narrowed currentUserId) ;;
         setIsLiked true ;;
         setLikesCount (fun prev => prev + 1)%Z)
      (fun error => toast_error (message_or error "Failed to like post")).

Definition handleComment : M state unit :=
  tell PreventDefault ;;
  if negb (truthy currentUserId)
     || negb (truthy_text (trim (newComment render)))
  then ret tt
  else
    setIsLoadingComment true ;;
    try_finally
      (try_catch
         (res <- comments_insert post_id (narrowed currentUserId)
                   (trim (newComment render)) ;;
          throw_if_error res ;;
          setNewComment [] ;;
          spawn fetchLikesAndComments ;;
          toast_success "Comment added!")
         (fun error =>
            toast_error (message_or error "Failed to add comment")))
      (setIsLoadingComment false).

Definition handleDelete : M state unit :=
  try_catch
    (res <- posts_delete post_id ;;
     throw_if_error res ;;
     toast_success "Post deleted!" ;;
     tell (Invoke "onDelete"))
    (fun error => toast_error (message_or error "Failed to delete post")).

(** [onClick={() => setShowComments(!showComments)}]. *)
Definition toggleComments : M state unit :=
  setShowComments (negb (showComments render)).

(** The delete control is rendered for the owner of the post only. *)
Definition shows_delete : bool :=
  match currentUserId with
  | Some uid => String.eqb uid (PostRow.user_id (fst post))
  | None => false
  end.

End Render.

End PostCard.

(** ** CreatePost *)

Module CreatePost.

Local Open Scope string_scope.

Record state := { content : text; isLoading : bool }.

Definition initial : state := {| content := []; isLoading := false |}.

Definition setContent (t : text) : M state unit :=
  update (fun s => {| content := t; isLoading := isLoading s |}).

Definition setIsLoading (b : bool) : M state unit :=
  update (fun s => {| content := content s; isLoading := b |}).

Section Render.

Variable render : state.

Definition handleSubmit : M state unit :=
  tell PreventDefault ;;
  if negb (truthy_text (trim (content render))) then ret tt
  else
    setIsLoading true ;;
    try_finally
      (try_catch
         (user <- auth_getUser ;;
          match user with
          | None => throw {| message := Some "Not authenticated" |}
          | Some user =>
              res <- posts_insert (session_user_id user)
                       (trim (content render)) ;;
              throw_if_error res ;;
              setContent [] ;;
              toast_success "Post created!" ;;
              tell (Invoke "onPostCreated")
          end)
         (fun error =>
            toast_error (message_or error "Failed to create post")))
      (setIsLoading false).

End Render.

End CreatePost.

(** ** Feed *)

Module Feed.

Local Open Scope string_scope.

Record state := {
  currentUser : option ProfileRow.t;
  posts : list (joined PostRow.t);
  isLoading : bool
}.

Definition initial : state :=
  {| currentUser := None; posts := []; isLoading := true |}.

Definition setCurrentUser (p : option ProfileRow.t) : M state unit :=
  update (fun s =>
    {| currentUser := p; posts := posts s; isLoading := isLoading s |}).

Definition setPosts (l : list (joined PostRow.t)) : M state unit :=
  update (fun s =>
    {| currentUser := currentUser s; posts := l; isLoading := isLoading s |}).

Definition setIsLoading (b : bool) : M state unit :=
  update (fun s =>
    {| currentUser := currentUser s; posts := posts s; isLoading := b |}).

Definition fetchPosts : M state unit :=
  setIsLoading true ;;
  try_finally
    (try_catch
       (res <- posts_select_all ;;
        throw_if_error res ;;
        setPosts (rows_or_empty (data res)))
       (fun error => console_error "Error fetching posts:" error))
    (setIsLoading false).

Definition checkAuth : M state unit :=
  session <- auth_getSession ;;
  match session with
  | None => navigate "/auth"
  | Some session =>
      profile <- profiles_select_single (session_user_id session) ;;
      setCurrentUser (data profile) ;;
      spawn fetchPosts
  end.

(** The mount effect. *)
Definition effect : M state unit := spawn checkAuth.

End Feed.

(** ** Profile *)

Module Profile.

Local Open Scope string_scope.

Record state := {
  currentUser : option ProfileRow.t;
  profile : option ProfileRow.t;
  posts : list (joined PostRow.t);
  isFollowing : bool;
  followersCount : Z;
  followingCount : Z;
  isLoading : bool
}.

Definition initial : state :=
  {| currentUser := None; profile := None; posts := [];
     isFollowing := false; followersCount := 0; followingCount := 0;
     isLoading := true |}.

Definition setCurrentUser (p : option ProfileRow.t) : M state unit :=
  update (fun s =>
    {| currentUser := p; profile := profile s; posts := posts s;
       isFollowing := isFollowing s; followersCount := followersCount s;
       followingCount := followingCount s; isLoading := isLoading s |}).

Definition setProfile (p : option ProfileRow.t) : M state unit :=
  update (fun s =>
    {| currentUser := currentUser s; profile := p; posts := posts s;
       isFollowing := isFollowing s; followersCount := followersCount s;
       followingCount := followingCount s; isLoading := isLoading s |}).

Definition setPosts (l : list (joined PostRow.t)) : M state unit :=
  update (fun s =>
    {| currentUser := currentUser s; profile := profile s; posts := l;
       isFollowing := isFollowing s; followersCount := followersCount s;
       followingCount := followingCount s; isLoading := isLoading s |}).

Definition setIsFollowing (b : bool) : M state unit :=
  update (fun s =>
    {| currentUser := currentUser s; profile := profile s; posts := posts s;
       isFollowing := b; followersCount := followersCount s;
       followingCount := followingCount s; isLoading := isLoading s |}).

Definition setFollowersCount (f : Z -> Z) : M state unit :=
  update (fun s =>
    {| currentUser := currentUser s; profile := profile s; posts := posts s;
       isFollowing := isFollowing s; followersCount := f (followersCount s);
       followingCount := followingCount s; isLoading := isLoading s |}).

Definition setFollowingCount (n : Z) : M state unit :=
  update (fun s =>
    {| currentUser := currentUser s; profile := profile s; posts := posts s;
       isFollowing := isFollowing s; followersCount := followersCount s;
       followingCount := n; isLoading := isLoading s |}).

Definition setIsLoading (b : bool) : M state unit :=
  update (fun s =>
    {| currentUser := currentUser s; profile := profile s; posts := posts s;
       isFollowing := isFollowing s; followersCount := followersCount s;
       followingCount := followingCount s; isLoading := b |}).

Section Render.

(** The route parameter, and the state as the render saw it. *)
Variable userId : option string.
Variable render : state.

Definition fetchProfile : M state unit :=
  if negb (truthy userId) then ret tt
  else
    setIsLoading true ;;
    try_finally
      (try_catch
         (profileData <- profiles_select_single (narrowed userId) ;;
          setProfile (data profileData) ;;
          postsData <- posts_select_by_user (narrowed userId) ;;
          setPosts (rows_or_empty (data postsData)) ;;
          followers <- follows_select_followers (narrowed userId) ;;
          following <- follows_select_following (narrowed userId) ;;
          setFollowersCount (fun _ => length_or_0 (data followers)) ;;
          setFollowingCount (length_or_0 (data following)) ;;
          match currentUser render with
          | Some viewer =>
              followData <- follows_select_single (ProfileRow.id viewer)
                              (narrowed userId) ;;
              setIsFollowing (is_object (data followData))
          | None => ret tt
          end)
         (fun error => console_error "Error fetching profile:" error))
      (setIsLoading false).

Definition checkAuth : M state unit :=
  session <- auth_getSession ;;
  match session with
  | None => navigate "/auth"
  | Some session =>
      currentProfile <- profiles_select_single (session_user_id session) ;;
      setCurrentUser (data currentProfile) ;;
      spawn fetchProfile
  end.

(** The effect on [userId]. *)
Definition effect : M state unit := spawn checkAuth.

Definition handleFollow : M state unit :=
  match currentUser render with
  | None => ret tt
  | Some viewer =>
      try_catch
        (if isFollowing render
         then
           _ <- follows_delete (ProfileRow.id viewer) userId ;;
           setIsFollowing false ;;
           setFollowersCount (fun prev => prev - 1)%Z ;;
           toast_success "Unfollowed"
         else
           _ <- follows_insert (ProfileRow.id viewer) userId ;;
           setIsFollowing true ;;
           setFollowersCount (fun prev => prev + 1)%Z ;;
           toast_success "Following!")
        (fun error =>
           toast_error (message_or error "Failed to update follow status"))
  end.

(** [currentUser?.id !== userId]: the follow control is rendered. *)
Definition shows_follow : bool :=
  match currentUser render, userId with
  | Some viewer, Some target => negb (String.eqb (ProfileRow.id viewer) target)
  | None, None => false
  | _, _ => true
  end.

End Render.

End Profile.

(** ** Running a handler *)

(** A user action, or an effect, runs the handler of the latest render: the
    values it has captured are those of the live state. *)
Definition fire {S} (handler : S -> M S unit) (w : world S) : world S :=
  snd (handler (ui w) w).

(** The events a run has added to the log. *)
Definition emitted {S} (w w' : world S) : list event :=
  skipn (List.length (log w)) (log w').

(** ** Outcomes of the awaited calls *)

Inductive outcome :=
| Succeeds
| ReturnsError (e : Error)
| Throws (e : Error).

(** What the next awaited call meets in world [w], were it served by
    [serve]: a fault of the network, an error of the store, or success. *)
Definition outcome_of {S A} (serve : Remote -> response A * Remote)
  (w : world S) : outcome :=
  match net w with
  | Some (Rejects e) :: _ => Throws e
  | Some (Fails e) :: _ => ReturnsError e
  | _ =>
      match error (fst (serve (remote w))) with
      | Some e => ReturnsError e
      | None => Succeeds
      end
  end.

(** The failure of a call, if it fails either way. *)
Definition failure (o : option outcome) : option Error :=
  match o with
  | Some (ReturnsError e) | Some (Throws e) => Some e
  | _ => None
  end.

Definition b2z (b : bool) : Z := if b then 1%Z else 0%Z.

Module PostCardCalls.
Import PostCard.

Section Render.

Variable post : joined PostRow.t.
Variable currentUserId : option string.

Let post_id : string := PostRow.id (fst post).

(** The call of [handleLike] in world [w], if it makes one. *)
Definition like_call (w : world state) : option outcome :=
  if negb (truthy currentUserId) then None
  else if isLiked (ui w)
  then Some (outcome_of
               (Store.likes_delete post_id (narrowed currentUserId)) w)
  else Some (outcome_of
               (Store.likes_insert post_id (narrowed currentUserId)) w).

Definition like_request (w : world state) : request :=
  if isLiked (ui w)
  then LikesDelete post_id (narrowed currentUserId)
  else LikesInsert post_id (narrowed currentUserId).

(** The call of [handleComment] in world [w], if it makes one. *)
Definition comment_call (w : world state) : option outcome :=
  if negb (truthy currentUserId)
     || negb (truthy_text (trim (newComment (ui w))))
  then None
  else Some (outcome_of
               (Store.comments_insert post_id (narrowed currentUserId)
                  (trim (newComment (ui w)))) w).

(** The call of [handleDelete] in world [w]. *)
Definition delete_call (w : world state) : option outcome :=
  Some (outcome_of (Store.posts_delete post_id) w).

(** The local like state mirrors the store: the viewer's like is there
    exactly when [isLiked], and [likesCount] counts the likes of the
    post. *)
Definition agrees (w : world state) : Prop :=
  isLiked (ui w)
  = existsb (Store.like_is post_id (narrowed currentUserId))
      (likes (remote w))
  /\ likesCount (ui w)
     = Z.of_nat
         (List.length (filter (Store.like_on post_id) (likes (remote w)))).

End Render.

End PostCardCalls.

Module CreatePostCalls.
Import CreatePost.

(** How a submission with non-blank content ends. *)
Inductive submission :=
| Posted
| LookupThrew (e : Error)
| NotAuthenticated
| InsertFailed (e : Error).

(** The outcome of the user lookup and of the insertion that follows it,
    for the content [render] holds, in world [w]. *)
Definition submission_of (render : state) (w : world state) : submission :=
  match auth_getUser w with
  | (Thrown e, _) => LookupThrew e
  | (Normal None, _) => NotAuthenticated
  | (Normal (Some user), w') =>
      match outcome_of
              (Store.posts_insert (session_user_id user)
                 (trim (content render))) w'
      with
      | Succeeds => Posted
      | ReturnsError e | Throws e => InsertFailed e
      end
  end.

(** The call that inserts the post, if the handler gets that far. *)
Definition insert_call (render : state) (w : world state) : option outcome :=
  if negb (truthy_text (trim (content render))) then None
  else
    match auth_getUser w with
    | (Normal (Some user), w') =>
        Some (outcome_of
                (Store.posts_insert (session_user_id user)
                   (trim (content render))) w')
    | _ => None
    end.

(** The notification a failed submission is announced with. *)
Definition failure_notice (s : submission) : option string :=
  match s with
  | Posted => None
  | LookupThrew e | InsertFailed e =>
      Some (message_or e "Failed to create post"%string)
  | NotAuthenticated => Some "Not authenticated"%string
  end.

End CreatePostCalls.

Module ProfileCalls.
Import Profile.

Section Render.

Variable userId : option string.

(** The call of [handleFollow] in world [w], if it makes one. *)
Definition follow_call (w : world state) : option outcome :=
  match currentUser (ui w) with
  | None => None
  | Some viewer =>
      if isFollowing (ui w)
      then Some (outcome_of
                   (Store.follows_delete (ProfileRow.id viewer) userId) w)
      else Some (outcome_of
                   (Store.follows_insert (ProfileRow.id viewer) userId) w)
  end.

(** The local follow state mirrors the store: the follow of the viewer is
    there exactly when [isFollowing], and [followersCount] counts the
    followers of the target. *)
Definition agrees (w : world state) : Prop :=
  match currentUser (ui w) with
  | None => True
  | Some viewer =>
      isFollowing (ui w)
      = existsb (Store.follow_is (ProfileRow.id viewer) (narrowed userId))
          (follows (remote w))
  end
  /\ followersCount (ui w)
     = Z.of_nat
         (List.length
            (filter (Store.follow_of (narrowed userId)) (follows (remote w)))).

End Render.

End ProfileCalls.

(** The failed like in the words of the specification: whenever the call
    of the toggle fails, the card shows an error notification and the
    like state the toggle aims at, the update applied and not taken back. *)
Definition notified_and_toggled
  (post : joined PostRow.t) (currentUserId : option string)
  (w : world PostCard.state) : Prop :=
  forall e : Error,
    failure (PostCardCalls.like_call post currentUserId w) = Some e ->
    let w' := fire (PostCard.handleLike post currentUserId) w in
    existsb is_toast_error (emitted w w') = true
    /\ PostCard.isLiked (ui w') = negb (PostCard.isLiked (ui w))
    /\ PostCard.likesCount (ui w')
       = (if PostCard.isLiked (ui w) then PostCard.likesCount (ui w) - 1
          else PostCard.likesCount (ui w) + 1)%Z.

(** The session lookup of an activation resolves, and there is no session. *)
Definition no_active_session {S} (w : world S) : Prop :=
  fst (auth_getSession w) = Normal None.

(** The session lookup of an activation resolves with the session of
    [user_id]. *)
Definition active_session {S} (user_id : string) (w : world S) : Prop :=
  fst (auth_getSession w) = Normal (Some {| session_user_id := user_id |}).

(** No read of a collection among the requests of a log. *)
Definition no_data_load (l : list event) : Prop :=
  existsb is_data_load (requests l) = false.

(** A handler stays within [allowed] and [keep] when every run of it, from
    any world, adds to the log only events that [allowed] accepts and takes
    the state of the component to one that [keep] relates it to. *)
Definition within {S A} (allowed : event -> bool) (keep : S -> S -> Prop)
  (m : M S A) : Prop :=
  forall w : world S,
    exists evs : list event,
      log (snd (m w)) = log w ++ evs
      /\ forallb allowed evs = true
      /\ keep (ui w) (ui (snd (m w))).

(** The lookup of one follow, whoever the pair. *)
Definition is_follow_lookup (e : event) : bool :=
  match e with
  | Request (FollowsSelectSingle _ _) => true
  | _ => false
  end.

(** ** Sample worlds *)

Module Sample.

Local Open Scope string_scope.

Definition boom : Error := {| message := Some "network down" |}.
Definition mute : Error := {| message := None |}.

Definition alice : ProfileRow.t :=
  {| ProfileRow.id := "alice"; ProfileRow.username := "alice";
     ProfileRow.full_name := None; ProfileRow.avatar_url := None;
     ProfileRow.bio := None |}.

Definition bob : ProfileRow.t :=
  {| ProfileRow.id := "bob"; ProfileRow.username := "bob";
     ProfileRow.full_name := Some "Bob"; ProfileRow.avatar_url := None;
     ProfileRow.bio := None |}.

(** The viewer of the samples, and the target of the Profile route. *)
Definition viewer : option string := Some "alice".
Definition target : option string := Some "bob".

(** "hi", and three blanks: a space, a tab and a line feed. *)
Definition hi : text := [104; 105]%N.
Definition blank : text := [32; 9; 10]%N.

Definition bobs_post : joined PostRow.t :=
  ({| PostRow.id := "p1"; PostRow.user_id := "bob"; PostRow.content := hi;
      PostRow.created_at := 0 |}, Some bob).

Definition like (user_id : string) : LikeRow.t :=
  {| LikeRow.post_id := "p1"; LikeRow.user_id := user_id |}.

(** Alice is signed in and follows Bob; Bob's post has three likes, none
    of them hers. *)
Definition store : Remote :=
  {| session := Some {| session_user_id := "alice" |};
     profiles := [alice; bob];
     posts := [fst bobs_post];
     likes := [like "bob"; like "carol"; like "dave"];
     comments := [];
     follows := [{| FollowRow.follower_id := "alice";
                    FollowRow.following_id := "bob" |}];
     clock := 1 |}.

Definition signed_out : Remote :=
  {| session := None; profiles := profiles store; posts := posts store;
     likes := likes store; comments := comments store;
     follows := follows store; clock := clock store |}.

(** Bob's post as Alice sees it once its likes are loaded. *)
Definition card : PostCard.state :=
  {| PostCard.isLiked := false; PostCard.likesCount := 3;
     PostCard.commentsCount := 0; PostCard.showComments := true;
     PostCard.comments := []; PostCard.newComment := hi;
     PostCard.isLoadingComment := false |}.

Definition blank_card : PostCard.state :=
  {| PostCard.isLiked := false; PostCard.likesCount := 3;
     PostCard.commentsCount := 0; PostCard.showComments := true;
     PostCard.comments := []; PostCard.newComment := blank;
     PostCard.isLoadingComment := false |}.

(** Bob's profile as Alice sees it when she follows him. *)
Definition bobs_page : Profile.state :=
  {| Profile.currentUser := Some alice; Profile.profile := Some bob;
     Profile.posts := [bobs_post]; Profile.isFollowing := true;
     Profile.followersCount := 1; Profile.followingCount := 0;
     Profile.isLoading := false |}.

Definition composer (t : text) : CreatePost.state :=
  {| CreatePost.content := t; CreatePost.isLoading := false |}.

Definition world_of {S} (s : S) (r : Remote) (faults : list (option fault))
  : world S :=
  {| ui := s; remote := r; net := faults; log := [] |}.

End Sample.

(** ** What the views show *)

(** The tree a Feed render returns, as far as the state decides it: the
    full-page spinner while there is no viewer; otherwise the bar, the
    composer and, below them, a spinner, the empty notice or one card per
    post, each card given the id of the viewer. *)
Module FeedView.
Import Feed.

Inductive body :=
| Loading
| NoPosts
| Cards (cards : list (joined PostRow.t * option string)).

Inductive screen :=
| Spinner
| Page (navbar : ProfileRow.t) (below_composer : body).

Definition view (render : state) : screen :=
  match currentUser render with
  | None => Spinner
  | Some viewer =>
      Page viewer
        (if isLoading render then Loading
         else
           match posts render with
           | [] => NoPosts
           | _ :: _ =>
               Cards (map (fun post => (post, Some (ProfileRow.id viewer)))
                        (posts render))
           end)
  end.

End FeedView.

(** The tree a Profile render returns: the spinner while loading, the
    notice that the profile was not found, or the page with its figures,
    the follow control when the viewer is not the target, and the posts. *)
Module ProfileView.
Import Profile.

Inductive control :=
| Hidden
| Follow
| Unfollow.

Inductive body :=
| NoPosts
| Cards (cards : list (joined PostRow.t * option string)).

Record header := {
  shown : ProfileRow.t;
  posts_figure : nat;
  followers_figure : Z;
  following_figure : Z;
  follow_control : control
}.

Inductive screen :=
| Spinner
| NotFound (navbar : option ProfileRow.t)
| Page (navbar : option ProfileRow.t) (top : header) (below : body).

(** [currentUser?.id]. *)
Definition viewer_id (render : state) : option string :=
  match currentUser render with
  | Some viewer => Some (ProfileRow.id viewer)
  | None => None
  end.

Definition view (userId : option string) (render : state) : screen :=
  if isLoading render then Spinner
  else
    match profile render with
    | None => NotFound (currentUser render)
    | Some target =>
        Page (currentUser render)
          {| shown := target;
             posts_figure := List.length (posts render);
             followers_figure := followersCount render;
             following_figure := followingCount render;
             follow_control :=
               if shows_follow userId render
               then (if isFollowing render then Unfollow else Follow)
               else Hidden |}
          (match posts render with
           | [] => NoPosts
           | _ :: _ =>
               Cards (map (fun post => (post, viewer_id render)) (posts render))
           end)
    end.

End ProfileView.

(** A text with no whitespace at either end. *)
Definition trimmed (t : text) : Prop :=
  match t with [] => True | c :: _ => is_ws c = false end
  /\ match rev t with [] => True | c :: _ => is_ws c = false end.


(** The events of a reload that reports to the console only. *)
Definition is_unobtrusive (e : event) : bool :=
  match e with
  | Request _ | UnhandledRejection _ | ConsoleError _ _ => true
  | _ => false
  end.

(** The outcome of the read of all posts in world [w]. *)
Definition posts_read {S} (w : world S) : outcome :=
  outcome_of Store.posts_select_all w.

(** The comments of a post in the store. *)
Definition comments_on (post_id : string) (r : Remote) : list CommentRow.t :=
  filter (fun c => String.eqb (CommentRow.post_id c) post_id) (comments r).

(** The rows of a profile id in the store. *)
Definition profiles_of (id : string) (r : Remote) : list ProfileRow.t :=
  filter (fun p => String.eqb (ProfileRow.id p) id) (profiles r).

(** No stored post is stamped later than the clock of the store. *)
Definition stamped (r : Remote) : Prop :=
  Forall (fun p => PostRow.created_at p <= clock r) (posts r).

(** More sample worlds. *)
Module Sample2.

Local Open Scope string_scope.

(** Padded text: "hi" between blanks. *)
Definition padded : text := [32; 104; 105; 10]%N.

Definition padded_card : PostCard.state :=
  {| PostCard.isLiked := false; PostCard.likesCount := 3;
     PostCard.commentsCount := 0; PostCard.showComments := true;
     PostCard.comments := []; PostCard.newComment := padded;
     PostCard.isLoadingComment := false |}.

(** The store of the samples with no profile row for the signed-in user. *)
Definition no_profile : Remote :=
  {| session := session Sample.store; profiles := [Sample.bob];
     posts := posts Sample.store; likes := likes Sample.store;
     comments := comments Sample.store; follows := follows Sample.store;
     clock := clock Sample.store |}.


End Sample2.

(** * Properties *)

Unset Implicit Arguments.

(** ** Logs *)

Lemma skipn_length_app {A} (l evs : list A) :
  skipn (List.length l) (l ++ evs) = evs.
Proof. induction l as [|a l IH]; simpl; auto. Qed.

Lemma emitted_app {S} (w w' : world S) (evs : list event) :
  log w' = log w ++ evs -> emitted w w' = evs.
Proof. unfold emitted. intros ->. apply skipn_length_app. Qed.

(** Case analysis on what the network has in stock for the next call. *)
Ltac next_fault w :=
  let n := fresh "n" in
  let e := fresh "e" in
  let Hnet := fresh "Hnet" in
  destruct (net w) as [|[[e|e]|] n] eqn:Hnet.

Ltac flatten_log := repeat rewrite <- app_assoc; simpl.

(** ** The like toggle *)

Section LikeToggle.

Import PostCard PostCardCalls.

Variable post : joined PostRow.t.
Variable currentUserId : option string.

(** A call that resolves, with or without an error in its result, is
    followed by the local update, and by nothing else. *)
Lemma handleLike_resolved (w : world state) :
  (like_call post currentUserId w = Some Succeeds
   \/ exists e, like_call post currentUserId w = Some (ReturnsError e)) ->
  let w' := fire (handleLike post currentUserId) w in
  isLiked (ui w') = negb (isLiked (ui w))
  /\ likesCount (ui w')
     = (if isLiked (ui w) then likesCount (ui w) - 1
        else likesCount (ui w) + 1)%Z
  /\ log w' = log w ++ [Request (like_request post currentUserId w)].
Proof.
  unfold like_call, like_request, fire, handleLike, outcome_of.
  destruct (truthy currentUserId); simpl.
  2: { intros [H | [e H]]; discriminate. }
  destruct (isLiked (ui w)) eqn:Hliked; simpl;
    unfold try_catch, bind, likes_delete, likes_insert, await;
    next_fault w; simpl.
  all: try (intros [H | [e' H]]; discriminate).
  all: try (intros _; repeat split; reflexivity).
  all: unfold Store.likes_insert;
    destruct (existsb _ (likes (remote w))); simpl;
    intros _; repeat split; reflexivity.
Qed.

(** A call that throws is reported, and the local state is not touched. *)
Lemma handleLike_thrown (w : world state) (e : Error) :
  like_call post currentUserId w = Some (Throws e) ->
  let w' := fire (handleLike post currentUserId) w in
  ui w' = ui w
  /\ log w' = log w ++ [Request (like_request post currentUserId w);
                        ToastError (message_or e "Failed to like post")].
Proof.
  unfold like_call, like_request, fire, handleLike, outcome_of.
  destruct (truthy currentUserId); simpl; [| discriminate].
  destruct (isLiked (ui w)) eqn:Hliked; simpl;
    unfold try_catch, bind, likes_delete, likes_insert, await;
    next_fault w; simpl.
  all: try discriminate.
  all: try (intros [= <-]; split; [reflexivity | now flatten_log]).
  all: unfold Store.likes_insert;
    destruct (existsb _ (likes (remote w))); simpl; discriminate.
Qed.

(** Without a viewer the handler asks to log in and makes no call. *)
Lemma handleLike_anonymous (w : world state) :
  truthy currentUserId = false ->
  let w' := fire (handleLike post currentUserId) w in
  ui w' = ui w /\ remote w' = remote w
  /\ log w' = log w ++ [ToastError "Please log in to like posts"].
Proof.
  intros H. unfold fire, handleLike. rewrite H. simpl. auto.
Qed.

(** A successful call changes the store as the toggle asks, and uses up
    one entry of the network. *)
Lemma handleLike_store (w : world state) :
  like_call post currentUserId w = Some Succeeds ->
  let w' := fire (handleLike post currentUserId) w in
  let post_id := PostRow.id (fst post) in
  let viewer := narrowed currentUserId in
  net w' = tl (net w)
  /\ likes (remote w')
     = (if isLiked (ui w)
        then filter (fun l => negb (Store.like_is post_id viewer l))
               (likes (remote w))
        else likes (remote w)
             ++ [{| LikeRow.post_id := post_id; LikeRow.user_id := viewer |}]).
Proof.
  unfold like_call, fire, handleLike, outcome_of.
  destruct (truthy currentUserId); simpl; [| discriminate].
  destruct (isLiked (ui w)) eqn:Hliked; simpl;
    unfold try_catch, bind, likes_delete, likes_insert, await;
    next_fault w; simpl.
  all: try discriminate.
  all: try (intros _; split; reflexivity).
  all: unfold Store.likes_insert;
    destruct (existsb _ (likes (remote w))); simpl;
    try discriminate; intros _; split; reflexivity.
Qed.

End LikeToggle.

(** C7.  A card that shows the post as not liked, with three likes, to a
    known viewer: a successful like toggle makes it liked with four likes.
    The only request of the handler is the insertion of the like; the
    likes collection is not read again. *)
Theorem like_three_becomes_four
  (post : joined PostRow.t) (currentUserId : option string)
  (w : world PostCard.state) :
  truthy currentUserId = true ->
  PostCard.isLiked (ui w) = false ->
  PostCard.likesCount (ui w) = 3%Z ->
  PostCardCalls.like_call post currentUserId w = Some Succeeds ->
  let w' := fire (PostCard.handleLike post currentUserId) w in
  PostCard.isLiked (ui w') = true
  /\ PostCard.likesCount (ui w') = 4%Z
  /\ requests (emitted w w')
     = [LikesInsert (PostRow.id (fst post)) (narrowed currentUserId)]
  /\ existsb is_likes_read (requests (emitted w w')) = false.
Proof.
  intros _ Hliked Hcount Hcall.
  destruct (handleLike_resolved post currentUserId w (or_introl Hcall))
    as (Hl & Hc & Hlog).
  cbv zeta. rewrite Hl, Hc, Hliked, Hcount.
  rewrite (emitted_app _ _ _ Hlog).
  unfold PostCardCalls.like_request. rewrite Hliked. simpl. auto.
Qed.

Lemma like_three_becomes_four_witness :
  let w := Sample.world_of Sample.card Sample.store [] in
  let w' := fire (PostCard.handleLike Sample.bobs_post Sample.viewer) w in
  PostCard.isLiked (ui w') = true
  /\ PostCard.likesCount (ui w') = 4%Z
  /\ requests (emitted w w') = [LikesInsert "p1" "alice"]
  /\ existsb is_likes_read (requests (emitted w w')) = false.
Proof.
  apply (like_three_becomes_four Sample.bobs_post Sample.viewer
           (Sample.world_of Sample.card Sample.store []));
    reflexivity.
Defined.

(** C10.  The number of likes that are not the viewer's, [likesCount]
    minus one when [isLiked], is the same before and after a successful
    like toggle: the toggle flips [isLiked], adds one to the count when
    [isLiked] turns true and takes one off when it turns false. *)
Theorem like_toggle_keeps_others
  (post : joined PostRow.t) (currentUserId : option string)
  (w : world PostCard.state) :
  PostCardCalls.like_call post currentUserId w = Some Succeeds ->
  let w' := fire (PostCard.handleLike post currentUserId) w in
  (PostCard.likesCount (ui w') - b2z (PostCard.isLiked (ui w'))
   = PostCard.likesCount (ui w) - b2z (PostCard.isLiked (ui w)))%Z
  /\ PostCard.isLiked (ui w') = negb (PostCard.isLiked (ui w))
  /\ (PostCard.isLiked (ui w') = true ->
      PostCard.likesCount (ui w') = PostCard.likesCount (ui w) + 1)%Z
  /\ (PostCard.isLiked (ui w') = false ->
      PostCard.likesCount (ui w') = PostCard.likesCount (ui w) - 1)%Z.
Proof.
  intros Hcall.
  destruct (handleLike_resolved post currentUserId w (or_introl Hcall))
    as (Hl & Hc & _).
  cbv zeta. rewrite Hl, Hc.
  destruct (PostCard.isLiked (ui w)); simpl; repeat split;
    try discriminate; intros; lia.
Qed.

Lemma like_toggle_keeps_others_witness :
  let w := Sample.world_of Sample.card Sample.store [] in
  let w' := fire (PostCard.handleLike Sample.bobs_post Sample.viewer) w in
  (PostCard.likesCount (ui w') - b2z (PostCard.isLiked (ui w')) = 3 - 0)%Z
  /\ PostCard.isLiked (ui w') = true
  /\ PostCard.likesCount (ui w') = 4%Z.
Proof.
  destruct (like_toggle_keeps_others Sample.bobs_post Sample.viewer
              (Sample.world_of Sample.card Sample.store []) eq_refl)
    as (Hothers & Hflip & Hup & _).
  split; [exact Hothers | split; [exact Hflip | exact (Hup Hflip)]].
Defined.

(** C1.  On a card whose like state mirrors the store, two like toggles in
    a row, both calls succeeding, bring back the liked state and the like
    count the card started from. *)
Theorem like_toggle_twice
  (post : joined PostRow.t) (currentUserId : option string)
  (w : world PostCard.state) :
  PostCardCalls.agrees post currentUserId w ->
  let w1 := fire (PostCard.handleLike post currentUserId) w in
  let w2 := fire (PostCard.handleLike post currentUserId) w1 in
  PostCardCalls.like_call post currentUserId w = Some Succeeds ->
  PostCardCalls.like_call post currentUserId w1 = Some Succeeds ->
  PostCard.isLiked (ui w2) = PostCard.isLiked (ui w)
  /\ PostCard.likesCount (ui w2) = PostCard.likesCount (ui w).
Proof.
  intros _ w1 w2 H1 H2.
  destruct (handleLike_resolved post currentUserId w (or_introl H1))
    as (Hl1 & Hc1 & _).
  destruct (handleLike_resolved post currentUserId w1 (or_introl H2))
    as (Hl2 & Hc2 & _).
  fold w1 in Hl1, Hc1. fold w2 in Hl2, Hc2.
  rewrite Hl2, Hc2, Hl1, Hc1.
  destruct (PostCard.isLiked (ui w)); simpl; split; auto; lia.
Qed.

Lemma like_toggle_twice_witness :
  let w := Sample.world_of Sample.card Sample.store [] in
  let w1 := fire (PostCard.handleLike Sample.bobs_post Sample.viewer) w in
  let w2 := fire (PostCard.handleLike Sample.bobs_post Sample.viewer) w1 in
  PostCard.isLiked (ui w2) = false /\ PostCard.likesCount (ui w2) = 3%Z.
Proof.
  apply (like_toggle_twice Sample.bobs_post Sample.viewer
           (Sample.world_of Sample.card Sample.store []));
    [split; reflexivity | reflexivity | reflexivity].
Defined.

(** ** The follow toggle *)

Section FollowToggle.

Import Profile ProfileCalls.

Variable userId : option string.

(** A call that resolves, with or without an error in its result, is
    followed by the local update and by the notice of success. *)
Lemma handleFollow_resolved (w : world state) :
  (follow_call userId w = Some Succeeds
   \/ exists e, follow_call userId w = Some (ReturnsError e)) ->
  let w' := fire (handleFollow userId) w in
  isFollowing (ui w') = negb (isFollowing (ui w))
  /\ followersCount (ui w')
     = (if isFollowing (ui w) then followersCount (ui w) - 1
        else followersCount (ui w) + 1)%Z
  /\ existsb is_toast_error (emitted w w') = false.
Proof.
  unfold follow_call, fire, handleFollow, outcome_of.
  destruct (currentUser (ui w)) as [viewer|]; simpl.
  2: { intros [H | [e H]]; discriminate. }
  destruct (isFollowing (ui w)) eqn:Hfollowing; simpl;
    unfold try_catch, bind, follows_delete, follows_insert, await;
    next_fault w; simpl.
  all: try (intros [H | [e' H]]; discriminate).
  all: unfold Store.follows_insert, Store.follows_delete;
    destruct userId as [target|]; simpl;
    try destruct (existsb _ (follows (remote w))); simpl;
    intros _; (repeat split; try reflexivity);
    unfold emitted; simpl; flatten_log;
    rewrite skipn_length_app; reflexivity.
Qed.

(** A call that throws is reported, and the local state is not touched. *)
Lemma handleFollow_thrown (w : world state) (e : Error) :
  follow_call userId w = Some (Throws e) ->
  let w' := fire (handleFollow userId) w in
  ui w' = ui w
  /\ exists r,
      log w' = log w ++ [Request r;
                         ToastError
                           (message_or e "Failed to update follow status")].
Proof.
  unfold follow_call, fire, handleFollow, outcome_of.
  destruct (currentUser (ui w)) as [viewer|]; simpl; [| discriminate].
  destruct (isFollowing (ui w)) eqn:Hfollowing; simpl;
    unfold try_catch, bind, follows_delete, follows_insert, await;
    next_fault w; simpl.
  all: try (intros [= <-]; split; [reflexivity | eexists; now flatten_log]).
  all: unfold Store.follows_insert, Store.follows_delete;
    destruct userId as [target|]; simpl;
    try destruct (existsb _ (follows (remote w))); simpl; discriminate.
Qed.

End FollowToggle.

(** C6.  On a profile page whose follow state mirrors the store, two follow
    toggles in a row, both calls succeeding, bring back the following state
    and the follower count the page started from. *)
Theorem follow_toggle_twice (userId : option string) (w : world Profile.state) :
  ProfileCalls.agrees userId w ->
  let w1 := fire (Profile.handleFollow userId) w in
  let w2 := fire (Profile.handleFollow userId) w1 in
  ProfileCalls.follow_call userId w = Some Succeeds ->
  ProfileCalls.follow_call userId w1 = Some Succeeds ->
  Profile.isFollowing (ui w2) = Profile.isFollowing (ui w)
  /\ Profile.followersCount (ui w2) = Profile.followersCount (ui w).
Proof.
  intros _ w1 w2 H1 H2.
  destruct (handleFollow_resolved userId w (or_introl H1)) as (Hf1 & Hc1 & _).
  destruct (handleFollow_resolved userId w1 (or_introl H2)) as (Hf2 & Hc2 & _).
  fold w1 in Hf1, Hc1. fold w2 in Hf2, Hc2.
  rewrite Hf2, Hc2, Hf1, Hc1.
  destruct (Profile.isFollowing (ui w)); simpl; split; auto; lia.
Qed.

Lemma follow_toggle_twice_witness :
  let w := Sample.world_of Sample.bobs_page Sample.store [] in
  let w1 := fire (Profile.handleFollow Sample.target) w in
  let w2 := fire (Profile.handleFollow Sample.target) w1 in
  Profile.isFollowing (ui w2) = true /\ Profile.followersCount (ui w2) = 1%Z.
Proof.
  apply (follow_toggle_twice Sample.target
           (Sample.world_of Sample.bobs_page Sample.store []));
    [split; reflexivity | reflexivity | reflexivity].
Defined.

(** ** Trimming *)

Lemma trim_start_blank (s : text) : blank s = true -> trim_start s = [].
Proof.
  unfold blank. induction s as [|c s IH]; simpl; [reflexivity |].
  destruct (is_ws c); simpl; [exact IH | discriminate].
Qed.

Lemma trim_start_nil (s : text) : trim_start s = [] -> blank s = true.
Proof.
  unfold blank. induction s as [|c s IH]; simpl; [reflexivity |].
  destruct (is_ws c); simpl; [exact IH | discriminate].
Qed.

(** What [trim_start] leaves is empty or starts with a visible unit. *)
Lemma trim_start_head (s : text) :
  match trim_start s with
  | [] => True
  | c :: _ => is_ws c = false
  end.
Proof.
  induction s as [|c s IH]; simpl; [exact I |].
  destruct (is_ws c) eqn:Hc; [exact IH | exact Hc].
Qed.

Lemma blank_rev (s : text) : blank (rev s) = blank s.
Proof.
  unfold blank. induction s as [|c s IH]; simpl; [reflexivity |].
  rewrite forallb_app, IH. simpl. rewrite andb_true_r. apply andb_comm.
Qed.

(** [trim] yields the empty string on the blank texts, and on no other. *)
Lemma trim_nil_iff (s : text) : trim s = [] <-> blank s = true.
Proof.
  unfold trim. split.
  - intros H.
    assert (Hrev : trim_start (rev (trim_start s)) = []).
    { destruct (trim_start (rev (trim_start s))) as [|c t]; [reflexivity |].
      simpl in H. apply app_eq_nil in H. destruct H; discriminate. }
    apply trim_start_nil in Hrev. rewrite blank_rev in Hrev.
    pose proof (trim_start_head s) as Hhead.
    destruct (trim_start s) as [|c t] eqn:Hs.
    + now apply trim_start_nil.
    + unfold blank in Hrev. simpl in Hrev. rewrite Hhead in Hrev.
      discriminate.
  - intros H. rewrite (trim_start_blank s H). reflexivity.
Qed.

Lemma truthy_trim (s : text) : truthy_text (trim s) = negb (blank s).
Proof.
  destruct (blank s) eqn:Hb.
  - apply trim_nil_iff in Hb. rewrite Hb. reflexivity.
  - destruct (trim s) eqn:Ht; [| reflexivity].
    apply trim_nil_iff in Ht. congruence.
Qed.

(** ** Submissions *)

(** C5.  With a content that is empty or made of whitespace only, the
    composer inserts no post and the comment form inserts no comment:
    neither handler issues a request, the store is as it was, and so is the
    state of the component, content field included. *)
Theorem blank_content_is_not_submitted
  (post : joined PostRow.t) (currentUserId : option string) :
  (forall w : world CreatePost.state,
      blank (CreatePost.content (ui w)) = true ->
      let w' := fire CreatePost.handleSubmit w in
      requests (emitted w w') = []
      /\ remote w' = remote w
      /\ ui w' = ui w)
  /\ (forall w : world PostCard.state,
         blank (PostCard.newComment (ui w)) = true ->
         let w' := fire (PostCard.handleComment post currentUserId) w in
         requests (emitted w w') = []
         /\ remote w' = remote w
         /\ ui w' = ui w).
Proof.
  split; intros w Hblank; cbv zeta.
  - unfold fire, CreatePost.handleSubmit, bind, tell. simpl.
    rewrite truthy_trim, Hblank. simpl.
    unfold emitted. simpl. rewrite skipn_length_app. destruct (ui w); auto.
  - unfold fire, PostCard.handleComment, bind, tell. simpl.
    rewrite truthy_trim, Hblank. simpl. rewrite orb_true_r. simpl.
    unfold emitted. simpl. rewrite skipn_length_app. destruct (ui w); auto.
Qed.

Lemma blank_content_is_not_submitted_witness :
  (let w := Sample.world_of (Sample.composer Sample.blank) Sample.store [] in
   let w' := fire CreatePost.handleSubmit w in
   requests (emitted w w') = [] /\ remote w' = remote w /\ ui w' = ui w)
  /\ (let w := Sample.world_of Sample.blank_card Sample.store [] in
      let w' := fire (PostCard.handleComment Sample.bobs_post
                        Sample.viewer) w in
      requests (emitted w w') = [] /\ remote w' = remote w /\ ui w' = ui w).
Proof.
  destruct (blank_content_is_not_submitted Sample.bobs_post
              Sample.viewer) as [Hpost Hcomment].
  split.
  - apply (Hpost (Sample.world_of (Sample.composer Sample.blank)
                    Sample.store [])).
    reflexivity.
  - apply (Hcomment (Sample.world_of Sample.blank_card Sample.store [])).
    reflexivity.
Defined.

(** ** The composer *)

Section Composer.

Import CreatePost CreatePostCalls.

Ltac run_submit w :=
  unfold fire, submission_of, handleSubmit, setIsLoading, setContent,
    posts_insert, auth_getUser, throw_if_error, toast_error, toast_success,
    try_finally, try_catch, update, tell, throw, await, bind, ret,
    outcome_of, Store.get_user, Store.posts_insert, emitted;
  let s := fresh "s" in
  let n := fresh "n" in
  let l := fresh "l" in
  destruct w as [s [[user|] ? ? ? ? ? ?] n l]; cbn;
  destruct n as [|[[?e|?e]|] n]; cbn;
  try (destruct n as [|[[?e|?e]|] ?n]; cbn).

(** Whatever the calls do, the handler completes and the loading flag is
    down. *)
Lemma handleSubmit_settles (w : world state) :
  blank (content (ui w)) = false ->
  fst (handleSubmit (ui w) w) = Normal tt
  /\ isLoading (ui (fire handleSubmit w)) = false.
Proof.
  intros Hblank.
  assert (Htrim : truthy_text (trim (content (ui w))) = true)
    by now rewrite truthy_trim, Hblank.
  revert Htrim. clear Hblank.
  run_submit w; intros ->; cbn; split; reflexivity.
Qed.

(** A submission that does not get through is announced by its notice,
    and the content stays in the field. *)
Lemma handleSubmit_failed (w : world state) (msg : string) :
  blank (content (ui w)) = false ->
  failure_notice (submission_of (ui w) w) = Some msg ->
  let w' := fire handleSubmit w in
  In (ToastError msg) (emitted w w')
  /\ content (ui w') = content (ui w).
Proof.
  intros Hblank.
  assert (Htrim : truthy_text (trim (content (ui w))) = true)
    by now rewrite truthy_trim, Hblank.
  revert Htrim. clear Hblank.
  run_submit w; intros ->; cbn; flatten_log; rewrite ?skipn_length_app;
    try discriminate; intros [= <-]; simpl; auto 10.
Qed.

(** A submission that gets through empties the field and tells the parent. *)
Lemma handleSubmit_posted (w : world state) :
  blank (content (ui w)) = false ->
  submission_of (ui w) w = Posted ->
  let w' := fire handleSubmit w in
  content (ui w') = []
  /\ exists user_id,
      emitted w w'
      = [PreventDefault; Request AuthGetUser;
         Request (PostsInsert user_id (trim (content (ui w))));
         ToastSuccess "Post created!"; Invoke "onPostCreated"].
Proof.
  intros Hblank.
  assert (Htrim : truthy_text (trim (content (ui w))) = true)
    by now rewrite truthy_trim, Hblank.
  revert Htrim. clear Hblank.
  run_submit w; intros ->; cbn; flatten_log; rewrite ?skipn_length_app;
    try discriminate; intros _; split; try reflexivity; eexists; reflexivity.
Qed.

End Composer.

(** C8.  A submission of the composer with non-blank content completes
    with the loading flag down, whether the user lookup and the insertion
    succeed or fail; when either fails, the failure is shown as an error
    notification. *)
Theorem submit_clears_loading (w : world CreatePost.state) :
  blank (CreatePost.content (ui w)) = false ->
  let w' := fire CreatePost.handleSubmit w in
  fst (CreatePost.handleSubmit (ui w) w) = Normal tt
  /\ CreatePost.isLoading (ui w') = false
  /\ (CreatePostCalls.submission_of (ui w) w <> CreatePostCalls.Posted ->
      exists msg,
        CreatePostCalls.failure_notice (CreatePostCalls.submission_of (ui w) w)
        = Some msg
        /\ In (ToastError msg) (emitted w w')).
Proof.
  intros Hblank. cbv zeta.
  destruct (handleSubmit_settles w Hblank) as [Hdone Hflag].
  repeat split; auto.
  intros Hfailed.
  destruct (CreatePostCalls.failure_notice
              (CreatePostCalls.submission_of (ui w) w)) as [msg|] eqn:Hnotice.
  - exists msg. split; [reflexivity |].
    now apply handleSubmit_failed.
  - destruct (CreatePostCalls.submission_of (ui w) w);
      simpl in Hnotice; congruence.
Qed.

Lemma submit_clears_loading_witness :
  let w := Sample.world_of (Sample.composer Sample.hi) Sample.store
             [None; Some (Fails Sample.boom)] in
  let w' := fire CreatePost.handleSubmit w in
  fst (CreatePost.handleSubmit (ui w) w) = Normal tt
  /\ CreatePost.isLoading (ui w') = false
  /\ (CreatePostCalls.submission_of (ui w) w <> CreatePostCalls.Posted ->
      exists msg,
        CreatePostCalls.failure_notice (CreatePostCalls.submission_of (ui w) w)
        = Some msg
        /\ In (ToastError msg) (emitted w w')).
Proof.
  apply (submit_clears_loading
           (Sample.world_of (Sample.composer Sample.hi) Sample.store
              [None; Some (Fails Sample.boom)])).
  reflexivity.
Defined.

(** ** Comments and deletion *)

Section CommentForm.

Import PostCard PostCardCalls.

Variable post : joined PostRow.t.
Variable currentUserId : option string.

(** A comment whose insertion fails, either way: one request, one error
    notification, the loading flag down again and the text still in the
    field. *)
Lemma handleComment_failed (w : world state) (e : Error) :
  failure (comment_call post currentUserId w) = Some e ->
  let w' := fire (handleComment post currentUserId) w in
  emitted w w'
  = [PreventDefault;
     Request (CommentsInsert (PostRow.id (fst post)) (narrowed currentUserId)
                (trim (newComment (ui w))));
     ToastError (message_or e "Failed to add comment")]
  /\ newComment (ui w') = newComment (ui w)
  /\ isLoadingComment (ui w') = false.
Proof.
  unfold comment_call, fire, handleComment.
  destruct (negb (truthy currentUserId)
            || negb (truthy_text (trim (newComment (ui w))))) eqn:Hguard.
  - discriminate.
  - unfold setIsLoadingComment, setNewComment, comments_insert,
      throw_if_error, toast_error, toast_success, spawn, try_finally,
      try_catch, update, tell, throw, await, bind, ret, outcome_of,
      Store.comments_insert, emitted.
    destruct w as [s r n l]; cbn. clear Hguard.
    destruct n as [|[[e'|e']|] n]; cbn; try discriminate;
      intros [= <-]; flatten_log; rewrite skipn_length_app; auto.
Qed.

(** A deletion that fails, either way, is reported and the parent is not
    told to reload. *)
Lemma handleDelete_failed (w : world state) (e : Error) :
  failure (delete_call post w) = Some e ->
  let w' := fire (fun _ => handleDelete post) w in
  emitted w w'
  = [Request (PostsDelete (PostRow.id (fst post)));
     ToastError (message_or e "Failed to delete post")]
  /\ ui w' = ui w.
Proof.
  unfold delete_call, fire, handleDelete, posts_delete, throw_if_error,
    toast_error, toast_success, try_catch, tell, throw, await, bind, ret,
    outcome_of, Store.posts_delete, emitted.
  destruct w as [s r n l]; cbn.
  destruct n as [|[[e'|e']|] n]; cbn; try discriminate;
    intros [= <-]; flatten_log; rewrite skipn_length_app; auto.
Qed.

End CommentForm.

(** C9.  A comment with non-blank content whose insertion fails leaves the
    text in the input field, which is emptied on success only, and does not
    load the likes and the comments again: the insertion is the only
    request of the handler. *)
Theorem failed_comment_keeps_text
  (post : joined PostRow.t) (currentUserId : option string)
  (w : world PostCard.state) (e : Error) :
  blank (PostCard.newComment (ui w)) = false ->
  failure (PostCardCalls.comment_call post currentUserId w) = Some e ->
  let w' := fire (PostCard.handleComment post currentUserId) w in
  PostCard.newComment (ui w') = PostCard.newComment (ui w)
  /\ requests (emitted w w')
     = [CommentsInsert (PostRow.id (fst post)) (narrowed currentUserId)
          (trim (PostCard.newComment (ui w)))]
  /\ no_data_load (emitted w w').
Proof.
  intros _ Hfail.
  destruct (handleComment_failed post currentUserId w e Hfail)
    as (Hlog & Htext & _).
  cbv zeta. unfold no_data_load. rewrite Hlog, Htext. simpl. auto.
Qed.

Lemma failed_comment_keeps_text_witness :
  let w := Sample.world_of Sample.card Sample.store
             [Some (Fails Sample.boom)] in
  let w' := fire (PostCard.handleComment Sample.bobs_post
                    Sample.viewer) w in
  PostCard.newComment (ui w') = Sample.hi
  /\ requests (emitted w w') = [CommentsInsert "p1" "alice" Sample.hi]
  /\ no_data_load (emitted w w').
Proof.
  apply (failed_comment_keeps_text Sample.bobs_post Sample.viewer
           (Sample.world_of Sample.card Sample.store
              [Some (Fails Sample.boom)]) Sample.boom);
    reflexivity.
Defined.

(** A comment that gets through empties the field and loads the likes and
    the comments again. *)
Lemma comment_success_refetches :
  let w := Sample.world_of Sample.card Sample.store [] in
  let w' := fire (PostCard.handleComment Sample.bobs_post
                    Sample.viewer) w in
  PostCard.newComment (ui w') = []
  /\ PostCard.commentsCount (ui w') = 1%Z
  /\ requests (emitted w w')
     = [CommentsInsert "p1" "alice" Sample.hi; LikesSelect "p1";
        CommentsSelect "p1"].
Proof. repeat split; reflexivity. Qed.

(** ** Failed mutations *)

(** The insertion of a post that fails is a failed submission. *)
Lemma insert_call_failed (w : world CreatePost.state) (e : Error) :
  failure (CreatePostCalls.insert_call (ui w) w) = Some e ->
  blank (CreatePost.content (ui w)) = false
  /\ CreatePostCalls.failure_notice (CreatePostCalls.submission_of (ui w) w)
     = Some (message_or e "Failed to create post").
Proof.
  unfold CreatePostCalls.insert_call, CreatePostCalls.submission_of.
  rewrite truthy_trim, negb_involutive.
  destruct (blank (CreatePost.content (ui w))); [discriminate |].
  destruct (auth_getUser w) as [[[user|]|e'] w1]; try discriminate.
  simpl.
  destruct (outcome_of _ w1); simpl; try discriminate;
    intros [= <-]; auto.
Qed.

(** C2, as the handlers have it.  A comment, a post creation or a deletion
    whose call fails, by throwing or by returning an error, and a like or a
    follow whose call throws, show an error notification that carries the
    message of the failure, or the fallback of the handler when the message
    is missing or empty.  The like and follow states are written after the
    call has resolved: a call that throws leaves the card and the page as
    they were before the action, with nothing applied and nothing to take
    back. *)
Theorem failed_mutation_is_notified
  (post : joined PostRow.t) (currentUserId userId : option string)
  (e : Error) :
  (forall w : world PostCard.state,
      PostCardCalls.like_call post currentUserId w = Some (Throws e) ->
      let w' := fire (PostCard.handleLike post currentUserId) w in
      In (ToastError (message_or e "Failed to like post")) (emitted w w')
      /\ ui w' = ui w)
  /\ (forall w : world Profile.state,
         ProfileCalls.follow_call userId w = Some (Throws e) ->
         let w' := fire (Profile.handleFollow userId) w in
         In (ToastError (message_or e "Failed to update follow status"))
           (emitted w w')
         /\ ui w' = ui w)
  /\ (forall w : world PostCard.state,
         failure (PostCardCalls.comment_call post currentUserId w) = Some e ->
         let w' := fire (PostCard.handleComment post currentUserId) w in
         In (ToastError (message_or e "Failed to add comment")) (emitted w w'))
  /\ (forall w : world CreatePost.state,
         failure (CreatePostCalls.insert_call (ui w) w) = Some e ->
         let w' := fire CreatePost.handleSubmit w in
         In (ToastError (message_or e "Failed to create post")) (emitted w w'))
  /\ (forall w : world PostCard.state,
         failure (PostCardCalls.delete_call post w) = Some e ->
         let w' := fire (fun _ => PostCard.handleDelete post) w in
         In (ToastError (message_or e "Failed to delete post")) (emitted w w')).
Proof.
  repeat apply conj; intros w H; cbv zeta.
  - destruct (handleLike_thrown post currentUserId w e H) as [Hui Hlog].
    rewrite (emitted_app _ _ _ Hlog). simpl. auto.
  - destruct (handleFollow_thrown userId w e H) as [Hui [r Hlog]].
    rewrite (emitted_app _ _ _ Hlog). simpl. auto.
  - destruct (handleComment_failed post currentUserId w e H) as [Hlog _].
    rewrite Hlog. simpl. auto.
  - destruct (insert_call_failed w e H) as [Hblank Hnotice].
    now apply handleSubmit_failed.
  - destruct (handleDelete_failed post w e H) as [Hlog _].
    rewrite Hlog. simpl. auto.
Qed.

Lemma failed_mutation_is_notified_witness :
  (let w := Sample.world_of Sample.card Sample.store
              [Some (Rejects Sample.boom)] in
   let w' := fire (PostCard.handleLike Sample.bobs_post
                     Sample.viewer) w in
   In (ToastError "network down") (emitted w w') /\ ui w' = ui w)
  /\ (let w := Sample.world_of Sample.bobs_page Sample.store
                 [Some (Rejects Sample.boom)] in
      let w' := fire (Profile.handleFollow Sample.target) w in
      In (ToastError "network down") (emitted w w') /\ ui w' = ui w)
  /\ (let w := Sample.world_of Sample.card Sample.store
                 [Some (Fails Sample.boom)] in
      let w' := fire (PostCard.handleComment Sample.bobs_post
                        Sample.viewer) w in
      In (ToastError "network down") (emitted w w'))
  /\ (let w := Sample.world_of (Sample.composer Sample.hi) Sample.store
                 [None; Some (Fails Sample.boom)] in
      let w' := fire CreatePost.handleSubmit w in
      In (ToastError "network down") (emitted w w'))
  /\ (let w := Sample.world_of Sample.card Sample.store
                 [Some (Fails Sample.boom)] in
      let w' := fire (fun _ => PostCard.handleDelete Sample.bobs_post) w in
      In (ToastError "network down") (emitted w w')).
Proof.
  destruct (failed_mutation_is_notified Sample.bobs_post
              Sample.viewer Sample.target Sample.boom)
    as (Hlike & Hfollow & Hcomment & Hpost & Hdelete).
  refine (conj _ (conj _ (conj _ (conj _ _)))).
  - apply (Hlike (Sample.world_of Sample.card Sample.store
                    [Some (Rejects Sample.boom)])).
    reflexivity.
  - apply (Hfollow (Sample.world_of Sample.bobs_page Sample.store
                      [Some (Rejects Sample.boom)])).
    reflexivity.
  - apply (Hcomment (Sample.world_of Sample.card Sample.store
                       [Some (Fails Sample.boom)])).
    reflexivity.
  - apply (Hpost (Sample.world_of (Sample.composer Sample.hi) Sample.store
                    [None; Some (Fails Sample.boom)])).
    reflexivity.
  - apply (Hdelete (Sample.world_of Sample.card Sample.store
                      [Some (Fails Sample.boom)])).
    reflexivity.
Defined.

(** C2, as stated, fails on the like toggle whichever way the call fails.
    When the call returns an error the card shows the toggled state and no
    notification; when the call throws the card shows the notification and
    the state from before the action. *)
Lemma failed_like_counterexample :
  ~ notified_and_toggled Sample.bobs_post Sample.viewer
      (Sample.world_of Sample.card Sample.store [Some (Fails Sample.boom)])
  /\ ~ notified_and_toggled Sample.bobs_post Sample.viewer
         (Sample.world_of Sample.card Sample.store
            [Some (Rejects Sample.boom)]).
Proof.
  split; intros Hclaim.
  - destruct (Hclaim Sample.boom eq_refl) as (Htoast & _). discriminate.
  - destruct (Hclaim Sample.boom eq_refl) as (_ & Hliked & _). discriminate.
Qed.

(** The two runs of the counterexample, event by event. *)
Lemma failed_like_runs :
  let returned :=
    fire (PostCard.handleLike Sample.bobs_post Sample.viewer)
      (Sample.world_of Sample.card Sample.store [Some (Fails Sample.boom)]) in
  let thrown :=
    fire (PostCard.handleLike Sample.bobs_post Sample.viewer)
      (Sample.world_of Sample.card Sample.store [Some (Rejects Sample.boom)]) in
  (log returned = [Request (LikesInsert "p1" "alice")]
   /\ PostCard.isLiked (ui returned) = true
   /\ PostCard.likesCount (ui returned) = 4%Z
   /\ likes (remote returned) = likes Sample.store)
  /\ (log thrown = [Request (LikesInsert "p1" "alice");
                    ToastError "network down"]
      /\ PostCard.isLiked (ui thrown) = false
      /\ PostCard.likesCount (ui thrown) = 3%Z).
Proof. repeat split; reflexivity. Qed.

(** The follow toggle does the same, and announces success on top. *)
Lemma failed_follow_runs :
  let returned :=
    fire (Profile.handleFollow Sample.target)
      (Sample.world_of Sample.bobs_page Sample.store
         [Some (Fails Sample.boom)]) in
  log returned = [Request (FollowsDelete "alice" Sample.target);
                  ToastSuccess "Unfollowed"]
  /\ Profile.isFollowing (ui returned) = false
  /\ Profile.followersCount (ui returned) = 0%Z
  /\ follows (remote returned) = follows Sample.store.
Proof. repeat split; reflexivity. Qed.

(** A failure without a message is announced with the fallback of the
    handler. *)
Lemma failed_comment_fallback :
  let w := Sample.world_of Sample.card Sample.store
             [Some (Fails Sample.mute)] in
  emitted w (fire (PostCard.handleComment Sample.bobs_post Sample.viewer) w)
  = [PreventDefault; Request (CommentsInsert "p1" "alice" Sample.hi);
     ToastError "Failed to add comment"].
Proof. reflexivity. Qed.

(** ** Activation of the views *)

(** C4.  Activated without a session, the Feed view and the Profile view
    go to the authentication entry point and read none of the collections:
    the session lookup is their only request, and the state of the view and
    the store are left as they were. *)
Theorem no_session_redirects (userId : option string) :
  (forall w : world Feed.state,
      no_active_session w ->
      let w' := fire (fun _ => Feed.effect) w in
      emitted w w' = [Request AuthGetSession; Navigate "/auth"]
      /\ no_data_load (emitted w w')
      /\ ui w' = ui w /\ remote w' = remote w)
  /\ (forall w : world Profile.state,
         no_active_session w ->
         let w' := fire (Profile.effect userId) w in
         emitted w w' = [Request AuthGetSession; Navigate "/auth"]
         /\ no_data_load (emitted w w')
         /\ ui w' = ui w /\ remote w' = remote w).
Proof.
  split; intros w; unfold no_active_session, no_data_load, fire,
    Feed.effect, Feed.checkAuth, Profile.effect, Profile.checkAuth,
    auth_getSession, navigate, spawn, tell, await, bind, ret,
    Store.get_session, emitted;
    destruct w as [s [[user|] ? ? ? ? ? ?] n l]; cbn;
    destruct n as [|[[e|e]|] n]; cbn; try discriminate; intros _;
    flatten_log; rewrite skipn_length_app; auto.
Qed.

Lemma no_session_redirects_witness :
  (let w := Sample.world_of Feed.initial Sample.signed_out [] in
   let w' := fire (fun _ => Feed.effect) w in
   emitted w w' = [Request AuthGetSession; Navigate "/auth"]
   /\ no_data_load (emitted w w')
   /\ ui w' = ui w /\ remote w' = remote w)
  /\ (let w := Sample.world_of Profile.initial Sample.signed_out [] in
      let w' := fire (Profile.effect Sample.target) w in
      emitted w w' = [Request AuthGetSession; Navigate "/auth"]
      /\ no_data_load (emitted w w')
      /\ ui w' = ui w /\ remote w' = remote w).
Proof.
  destruct (no_session_redirects Sample.target) as [Hfeed Hprofile].
  split.
  - apply (Hfeed (Sample.world_of Feed.initial Sample.signed_out [])).
    reflexivity.
  - apply (Hprofile (Sample.world_of Profile.initial Sample.signed_out [])).
    reflexivity.
Defined.

(** With a session, the Feed view loads the profile of the viewer and the
    posts. *)
Lemma feed_activation_loads :
  let w := Sample.world_of Feed.initial Sample.store [] in
  let w' := fire (fun _ => Feed.effect) w in
  requests (emitted w w') = [AuthGetSession; ProfilesSelectSingle "alice";
                             PostsSelectAll]
  /\ Feed.currentUser (ui w') = Some Sample.alice
  /\ Feed.posts (ui w') = [Sample.bobs_post]
  /\ Feed.isLoading (ui w') = false.
Proof. repeat split; reflexivity. Qed.

(** C3, on the first activation.  Alice is signed in and follows Bob.  The
    Profile view mounts on Bob's page: it finds her session, loads her
    profile and stores it with [setCurrentUser], loads Bob's profile, his
    posts and both counts.  [fetchProfile] then tests the [currentUser] of
    the render that created it, which is the initial [null]: the follows
    collection is not asked about the pair, and [isFollowing] stays at its
    initial [false] although the follow is in the store. *)
Lemma profile_mount_skips_follow_lookup :
  let w := Sample.world_of Profile.initial Sample.store [] in
  let w' := fire (Profile.effect Sample.target) w in
  active_session "alice" w
  /\ existsb (Store.follow_is "alice" "bob") (follows (remote w)) = true
  /\ Profile.currentUser (ui w') = Some Sample.alice
  /\ Profile.profile (ui w') = Some Sample.bob
  /\ Profile.followersCount (ui w') = 1%Z
  /\ requests (emitted w w')
     = [AuthGetSession; ProfilesSelectSingle "alice";
        ProfilesSelectSingle "bob"; PostsSelectByUser "bob";
        FollowsSelectFollowers "bob"; FollowsSelectFollowing "bob"]
  /\ Profile.isFollowing (ui w') = false.
Proof. repeat split; reflexivity. Qed.

(** The lookup is made by an activation whose render already holds a
    viewer, as when the route moves from one profile to another. *)
Lemma profile_reactivation_looks_up_follow :
  let w := Sample.world_of Profile.initial Sample.store [] in
  let w1 := fire (Profile.effect Sample.target) w in
  let w2 := fire (Profile.effect Sample.target) w1 in
  requests (emitted w1 w2)
  = [AuthGetSession; ProfilesSelectSingle "alice";
     ProfilesSelectSingle "bob"; PostsSelectByUser "bob";
     FollowsSelectFollowers "bob"; FollowsSelectFollowing "bob";
     FollowsSelectSingle "alice" "bob"]
  /\ Profile.isFollowing (ui w2) = true.
Proof. repeat split; reflexivity. Qed.

(** ** The local state and the store *)

Section Rows.

Variable A : Type.
Variables (same counted : A -> bool) (row : A).
Hypothesis same_row : forall a, same a = true <-> a = row.
Hypothesis counted_row : counted row = true.

Lemma absent_not_in (l : list A) : existsb same l = false -> ~ In row l.
Proof.
  intros Habsent Hin.
  assert (Hex : existsb same l = true).
  { apply existsb_exists. exists row. split; [exact Hin | now apply same_row]. }
  congruence.
Qed.

Lemma member_added (l : list A) : existsb same (l ++ [row]) = true.
Proof.
  rewrite existsb_app. simpl.
  rewrite (proj2 (same_row row) eq_refl). now rewrite orb_true_r.
Qed.

Lemma count_added (l : list A) :
  List.length (filter counted (l ++ [row]))
  = S (List.length (filter counted l)).
Proof.
  rewrite filter_app, length_app. simpl. rewrite counted_row. simpl. lia.
Qed.

Lemma nodup_added (l : list A) :
  NoDup l -> existsb same l = false -> NoDup (l ++ [row]).
Proof.
  intros Hnodup Habsent. apply NoDup_app; auto.
  - constructor; [intros [] | constructor].
  - intros a Hin [<- | []]. now apply (absent_not_in l).
Qed.

Lemma member_removed (l : list A) :
  existsb same (filter (fun a => negb (same a)) l) = false.
Proof.
  induction l as [|a l IH]; simpl; [reflexivity |].
  destruct (same a) eqn:Ha; simpl; [exact IH | now rewrite Ha].
Qed.

Lemma others_kept (l : list A) :
  ~ In row l -> filter (fun a => negb (same a)) l = l.
Proof.
  induction l as [|a l IH]; simpl; [reflexivity |].
  intros Hnot. destruct (same a) eqn:Ha; simpl.
  - apply same_row in Ha. subst a. tauto.
  - f_equal. apply IH. tauto.
Qed.

Lemma count_removed (l : list A) :
  NoDup l -> existsb same l = true ->
  S (List.length (filter counted (filter (fun a => negb (same a)) l)))
  = List.length (filter counted l).
Proof.
  induction 1 as [|a l Hnot Hnodup IH]; simpl; [discriminate |].
  destruct (same a) eqn:Ha; simpl.
  - intros _. apply same_row in Ha. subst a.
    rewrite (others_kept l Hnot), counted_row. reflexivity.
  - intros Hmember. destruct (counted a); simpl; rewrite <- (IH Hmember);
      reflexivity.
Qed.

(** With one row per identity, the rows of an identity are that row or
    none. *)
Lemma single_row (l : list A) :
  NoDup l -> filter same l = if existsb same l then [row] else [].
Proof.
  induction 1 as [|a l Hnot Hnodup IH]; simpl; [reflexivity |].
  destruct (same a) eqn:Ha; simpl.
  - apply same_row in Ha. subst a. f_equal.
    rewrite IH. destruct (existsb same l) eqn:Hmember; [| reflexivity].
    apply existsb_exists in Hmember. destruct Hmember as (b & Hin & Hb).
    apply same_row in Hb. subst b. contradiction.
  - exact IH.
Qed.

End Rows.

Lemma like_is_row (post_id user_id : string) (l : LikeRow.t) :
  Store.like_is post_id user_id l = true
  <-> l = {| LikeRow.post_id := post_id; LikeRow.user_id := user_id |}.
Proof.
  unfold Store.like_is. destruct l as [p u]. simpl.
  rewrite andb_true_iff, !String.eqb_eq. split.
  - intros [-> ->]. reflexivity.
  - intros [= -> ->]. auto.
Qed.

Lemma like_on_row (post_id user_id : string) :
  Store.like_on post_id
    {| LikeRow.post_id := post_id; LikeRow.user_id := user_id |} = true.
Proof. unfold Store.like_on. simpl. apply String.eqb_refl. Qed.

Lemma follow_is_row (follower_id following_id : string) (f : FollowRow.t) :
  Store.follow_is follower_id following_id f = true
  <-> f = {| FollowRow.follower_id := follower_id;
             FollowRow.following_id := following_id |}.
Proof.
  unfold Store.follow_is. destruct f as [a b]. simpl.
  rewrite andb_true_iff, !String.eqb_eq. split.
  - intros [-> ->]. reflexivity.
  - intros [= -> ->]. auto.
Qed.

Lemma follow_of_row (follower_id following_id : string) :
  Store.follow_of following_id
    {| FollowRow.follower_id := follower_id;
       FollowRow.following_id := following_id |} = true.
Proof. unfold Store.follow_of. simpl. apply String.eqb_refl. Qed.

(** A successful like toggle on a card that mirrors a store with one row
    per like yields a card that mirrors the store again. *)
Lemma handleLike_keeps_agreement
  (post : joined PostRow.t) (currentUserId : option string)
  (w : world PostCard.state) :
  PostCardCalls.agrees post currentUserId w ->
  NoDup (likes (remote w)) ->
  PostCardCalls.like_call post currentUserId w = Some Succeeds ->
  let w' := fire (PostCard.handleLike post currentUserId) w in
  PostCardCalls.agrees post currentUserId w' /\ NoDup (likes (remote w')).
Proof.
  intros [Hliked Hcount] Hnodup Hcall w'.
  destruct (handleLike_resolved post currentUserId w (or_introl Hcall))
    as (Hl & Hc & _).
  destruct (handleLike_store post currentUserId w Hcall) as (_ & Hstore).
  fold w' in Hl, Hc, Hstore. cbv zeta in Hstore.
  unfold PostCardCalls.agrees. rewrite Hl, Hc, Hstore.
  set (post_id := PostRow.id (fst post)) in *.
  set (viewer := narrowed currentUserId) in *.
  pose proof (like_is_row post_id viewer) as Hrow.
  pose proof (like_on_row post_id viewer) as Hon.
  destruct (PostCard.isLiked (ui w)); simpl.
  - repeat split.
    + symmetry. now apply member_removed.
    + rewrite Hcount.
      rewrite <- (count_removed _ _ _ _ Hrow Hon _ Hnodup (eq_sym Hliked)).
      lia.
    + now apply NoDup_filter.
  - repeat split.
    + symmetry. now apply member_added with (1 := Hrow).
    + rewrite Hcount, (count_added _ _ _ Hon). lia.
    + now apply nodup_added with (1 := Hrow).
Qed.

(** So do the store and the card after the two toggles of C1. *)
Lemma like_toggle_twice_store
  (post : joined PostRow.t) (currentUserId : option string)
  (w : world PostCard.state) :
  PostCardCalls.agrees post currentUserId w ->
  NoDup (likes (remote w)) ->
  let w1 := fire (PostCard.handleLike post currentUserId) w in
  let w2 := fire (PostCard.handleLike post currentUserId) w1 in
  PostCardCalls.like_call post currentUserId w = Some Succeeds ->
  PostCardCalls.like_call post currentUserId w1 = Some Succeeds ->
  PostCardCalls.agrees post currentUserId w2 /\ NoDup (likes (remote w2)).
Proof.
  intros Hagrees Hnodup w1 w2 H1 H2.
  destruct (handleLike_keeps_agreement post currentUserId w Hagrees Hnodup H1)
    as [Hagrees1 Hnodup1].
  exact (handleLike_keeps_agreement post currentUserId w1 Hagrees1 Hnodup1 H2).
Qed.

(** On a card that mirrors a store with one row per like, the call of a
    like toggle can only fail through the network. *)
Lemma agreed_like_meets_no_store_error
  (post : joined PostRow.t) (currentUserId : option string)
  (w : world PostCard.state) :
  PostCardCalls.agrees post currentUserId w ->
  truthy currentUserId = true ->
  hd None (net w) = None ->
  PostCardCalls.like_call post currentUserId w = Some Succeeds.
Proof.
  intros [Hliked _] Hviewer Hnet.
  unfold PostCardCalls.like_call, outcome_of. rewrite Hviewer. simpl.
  destruct (net w) as [|[f|] n]; simpl in Hnet; try discriminate;
    destruct (PostCard.isLiked (ui w)); simpl; try reflexivity;
    unfold Store.likes_insert; rewrite <- Hliked; reflexivity.
Qed.

(** ** Handlers that stay within bounds *)

Section Within.

Context {S : Type}.
Variable allowed : event -> bool.
Variable keep : S -> S -> Prop.
Hypothesis keep_refl : forall s, keep s s.
Hypothesis keep_trans : forall s1 s2 s3, keep s1 s2 -> keep s2 s3 -> keep s1 s3.

Lemma within_ret {A} (a : A) : within allowed keep (ret a : M S A).
Proof. intros w. exists []. simpl. rewrite app_nil_r. auto. Qed.

Lemma within_throw {A} (e : Error) : within allowed keep (throw e : M S A).
Proof. intros w. exists []. simpl. rewrite app_nil_r. auto. Qed.

Lemma within_bind {A B} (m : M S A) (k : A -> M S B) :
  within allowed keep m ->
  (forall a, within allowed keep (k a)) ->
  within allowed keep (bind m k).
Proof.
  intros Hm Hk w. unfold bind.
  destruct (Hm w) as (evs & Hlog & Hok & Hkeep).
  destruct (m w) as [[a|e] w1]; simpl in *.
  - destruct (Hk a w1) as (evs' & Hlog' & Hok' & Hkeep').
    exists (evs ++ evs').
    rewrite Hlog', Hlog, app_assoc, forallb_app, Hok, Hok'.
    eauto.
  - exists evs. auto.
Qed.

Lemma within_try_catch {A} (body : M S A) (handler : Error -> M S A) :
  within allowed keep body ->
  (forall e, within allowed keep (handler e)) ->
  within allowed keep (try_catch body handler).
Proof.
  intros Hm Hk w. unfold try_catch.
  destruct (Hm w) as (evs & Hlog & Hok & Hkeep).
  destruct (body w) as [[a|e] w1]; simpl in *.
  - exists evs. auto.
  - destruct (Hk e w1) as (evs' & Hlog' & Hok' & Hkeep').
    exists (evs ++ evs').
    rewrite Hlog', Hlog, app_assoc, forallb_app, Hok, Hok'.
    eauto.
Qed.

Lemma within_try_finally {A} (body : M S A) (cleanup : M S unit) :
  within allowed keep body ->
  within allowed keep cleanup ->
  within allowed keep (try_finally body cleanup).
Proof.
  intros Hm Hk w. unfold try_finally.
  destruct (Hm w) as (evs & Hlog & Hok & Hkeep).
  destruct (body w) as [c w1]; simpl in *.
  destruct (Hk w1) as (evs' & Hlog' & Hok' & Hkeep').
  exists (evs ++ evs').
  destruct (cleanup w1) as [[u|e] w2]; simpl in *;
    rewrite Hlog', Hlog, app_assoc, forallb_app, Hok, Hok'; eauto.
Qed.

Lemma within_tell (e : event) :
  allowed e = true -> within allowed keep (tell e : M S unit).
Proof. intros He w. exists [e]. simpl. rewrite He. auto. Qed.

Lemma within_spawn (p : M S unit) :
  (forall e, allowed (UnhandledRejection e) = true) ->
  within allowed keep p ->
  within allowed keep (spawn p).
Proof.
  intros Hrej Hp w. unfold spawn.
  destruct (Hp w) as (evs & Hlog & Hok & Hkeep).
  destruct (p w) as [[u|e] w1]; simpl in *.
  - exists evs. auto.
  - exists (evs ++ [UnhandledRejection e]).
    rewrite Hlog, app_assoc, forallb_app, Hok. simpl. rewrite Hrej. auto.
Qed.

Lemma within_update (f : S -> S) :
  (forall s, keep s (f s)) -> within allowed keep (update f).
Proof. intros Hf w. exists []. simpl. rewrite app_nil_r. auto. Qed.

Lemma within_await {A} (r : request) (serve : Remote -> response A * Remote) :
  allowed (Request r) = true -> within allowed keep (await r serve : M S _).
Proof.
  intros Hr w. exists [Request r]. unfold await.
  destruct (net w) as [|[[e|e]|] n]; try destruct (serve (remote w));
    simpl; rewrite Hr; auto.
Qed.

End Within.

(** Every first activation.  While the render that starts the
    activation holds no viewer, whatever the store holds and whatever the
    calls do, the Profile view does not look any follow up and leaves
    [isFollowing] as it is. *)
Lemma activation_without_viewer (userId : option string)
  (render : Profile.state) :
  Profile.currentUser render = None ->
  within (fun e => negb (is_follow_lookup e))
    (fun s s' => Profile.isFollowing s' = Profile.isFollowing s)
    (Profile.effect userId render).
Proof.
  intros Hviewer.
  assert (Hrefl : forall s : Profile.state,
             Profile.isFollowing s = Profile.isFollowing s) by reflexivity.
  assert (Htrans : forall s1 s2 s3 : Profile.state,
             Profile.isFollowing s2 = Profile.isFollowing s1 ->
             Profile.isFollowing s3 = Profile.isFollowing s2 ->
             Profile.isFollowing s3 = Profile.isFollowing s1)
    by (intros; congruence).
  unfold Profile.effect, Profile.checkAuth, Profile.fetchProfile.
  rewrite Hviewer.
  unfold auth_getSession, profiles_select_single, posts_select_by_user,
    follows_select_followers, follows_select_following, navigate,
    console_error, Profile.setCurrentUser, Profile.setProfile,
    Profile.setPosts, Profile.setFollowersCount, Profile.setFollowingCount,
    Profile.setIsLoading.
  destruct (truthy userId); cbn [negb].
  all: repeat
    (lazymatch goal with
     | |- within _ _ (spawn _) => apply within_spawn
     | |- within _ _ (bind _ _) => apply within_bind
     | |- within _ _ (try_finally _ _) => apply within_try_finally
     | |- within _ _ (try_catch _ _) => apply within_try_catch
     | |- within _ _ (ret _) => apply within_ret
     | |- within _ _ (tell _) => apply within_tell
     | |- within _ _ (update _) => apply within_update
     | |- within _ _ (await _ _) => apply within_await
     | |- within _ _ (match ?x with _ => _ end) => destruct x
     end;
     try assumption; try reflexivity; intros).
Qed.

(** Hence on mount, where the state is the initial one, [isFollowing] is
    [false] at the end, whether or not the viewer follows the target. *)
Lemma mount_leaves_not_following (userId : option string)
  (r : Remote) (faults : list (option fault)) :
  let w := Sample.world_of Profile.initial r faults in
  let w' := fire (Profile.effect userId) w in
  Profile.isFollowing (ui w') = false
  /\ existsb is_follow_lookup (emitted w w') = false.
Proof.
  intros w w'.
  destruct (activation_without_viewer userId Profile.initial eq_refl w)
    as (evs & Hlog & Hok & Hkeep).
  change (snd (Profile.effect userId Profile.initial w)) with w'
    in Hlog, Hkeep.
  split.
  - exact Hkeep.
  - rewrite (emitted_app _ _ _ Hlog).
    clear Hlog. induction evs as [|e evs IH]; simpl in *; [reflexivity |].
    apply andb_true_iff in Hok. destruct Hok as [He Hok].
    rewrite (IH Hok). apply negb_true_iff in He. rewrite He. reflexivity.
Qed.

(** A successful follow toggle changes the store as the toggle asks. *)
Lemma handleFollow_store (userId : option string) (w : world Profile.state) :
  ProfileCalls.follow_call userId w = Some Succeeds ->
  let w' := fire (Profile.handleFollow userId) w in
  exists viewer target,
    Profile.currentUser (ui w) = Some viewer
    /\ userId = Some target
    /\ Profile.currentUser (ui w') = Some viewer
    /\ follows (remote w')
       = (if Profile.isFollowing (ui w)
          then filter
                 (fun f =>
                    negb (Store.follow_is (ProfileRow.id viewer) target f))
                 (follows (remote w))
          else follows (remote w)
               ++ [{| FollowRow.follower_id := ProfileRow.id viewer;
                      FollowRow.following_id := target |}]).
Proof.
  unfold ProfileCalls.follow_call, fire, Profile.handleFollow, outcome_of.
  destruct (Profile.currentUser (ui w)) as [viewer|] eqn:Hviewer; simpl;
    [| discriminate].
  destruct userId as [target|];
    destruct (Profile.isFollowing (ui w)) eqn:Hfollowing; simpl;
    unfold try_catch, bind, follows_delete, follows_insert, await;
    next_fault w; simpl.
  all: try discriminate.
  all: try (intros _; exists viewer, target; simpl; rewrite Hviewer; auto).
  all: unfold Store.follows_insert;
    destruct (existsb _ (follows (remote w))); simpl;
    try discriminate; intros _; exists viewer, target; simpl;
    rewrite Hviewer; auto.
Qed.

(** A successful follow toggle on a page that mirrors a store with one row
    per follow yields a page that mirrors the store again. *)
Lemma handleFollow_keeps_agreement
  (userId : option string) (w : world Profile.state) :
  ProfileCalls.agrees userId w ->
  NoDup (follows (remote w)) ->
  ProfileCalls.follow_call userId w = Some Succeeds ->
  let w' := fire (Profile.handleFollow userId) w in
  ProfileCalls.agrees userId w' /\ NoDup (follows (remote w')).
Proof.
  intros [Hfollowing Hcount] Hnodup Hcall w'.
  destruct (handleFollow_resolved userId w (or_introl Hcall))
    as (Hf & Hc & _).
  destruct (handleFollow_store userId w Hcall)
    as (viewer & target & Hviewer & -> & Hviewer' & Hstore).
  fold w' in Hf, Hc, Hviewer', Hstore.
  unfold ProfileCalls.agrees. rewrite Hviewer', Hf, Hc, Hstore.
  rewrite Hviewer in Hfollowing. simpl narrowed in *.
  pose proof (follow_is_row (ProfileRow.id viewer) target) as Hrow.
  pose proof (follow_of_row (ProfileRow.id viewer) target) as Hon.
  destruct (Profile.isFollowing (ui w)); simpl.
  - repeat split.
    + symmetry. now apply member_removed.
    + rewrite Hcount.
      rewrite <- (count_removed _ _ _ _ Hrow Hon _ Hnodup (eq_sym Hfollowing)).
      lia.
    + now apply NoDup_filter.
  - repeat split.
    + symmetry. now apply member_added with (1 := Hrow).
    + rewrite Hcount, (count_added _ _ _ Hon). lia.
    + now apply nodup_added with (1 := Hrow).
Qed.

(** The loaders of the card bring it in line with the store: once the
    effect has run, with no fault on the way and one row per like in the
    store, the card mirrors the store. *)
Lemma effect_agrees
  (post : joined PostRow.t) (currentUserId : option string)
  (w : world PostCard.state) :
  truthy currentUserId = true ->
  net w = [] ->
  NoDup (likes (remote w)) ->
  PostCardCalls.agrees post currentUserId
    (fire (fun _ => PostCard.effect post currentUserId) w).
Proof.
  intros Hviewer Hnet Hnodup.
  unfold PostCardCalls.agrees, fire, PostCard.effect,
    PostCard.fetchLikesAndComments, PostCard.checkIfLiked.
  rewrite Hviewer.
  unfold PostCard.setLikesCount, PostCard.setCommentsCount,
    PostCard.setComments, PostCard.setIsLiked, likes_select, comments_select,
    likes_select_single, spawn, update, await, bind, ret,
    Store.likes_select, Store.comments_select, Store.likes_select_single.
  destruct w as [s r n l]. simpl in Hnet, Hnodup. subst n. cbn.
  split; [| reflexivity].
  rewrite (single_row _ _ _
             (like_is_row (PostRow.id (fst post)) (narrowed currentUserId))
             _ Hnodup).
  now destruct (existsb _ (likes r)).
Qed.

(** The card of the samples is the one the loaders produce. *)
Lemma sample_card_is_loaded :
  let w := fire (fun _ => PostCard.effect Sample.bobs_post
                            Sample.viewer)
             (Sample.world_of PostCard.initial Sample.store []) in
  PostCard.isLiked (ui w) = PostCard.isLiked Sample.card
  /\ PostCard.likesCount (ui w) = PostCard.likesCount Sample.card.
Proof. split; reflexivity. Qed.

(** A later activation.  When the render that starts the activation
    holds a viewer, and no call meets a fault, the view asks the follows
    collection about the pair of that viewer and the target, after the two
    counts, and [isFollowing] becomes the membership of the pair. *)
Lemma activation_with_viewer
  (target : string) (viewer : ProfileRow.t) (s : Session)
  (w : world Profile.state) :
  truthy_string target = true ->
  Profile.currentUser (ui w) = Some viewer ->
  session (remote w) = Some s ->
  net w = [] ->
  NoDup (follows (remote w)) ->
  let w' := fire (Profile.effect (Some target)) w in
  requests (emitted w w')
  = [AuthGetSession; ProfilesSelectSingle (session_user_id s);
     ProfilesSelectSingle target; PostsSelectByUser target;
     FollowsSelectFollowers target; FollowsSelectFollowing target;
     FollowsSelectSingle (ProfileRow.id viewer) target]
  /\ Profile.isFollowing (ui w')
     = existsb (Store.follow_is (ProfileRow.id viewer) target)
         (follows (remote w))
  /\ Profile.followersCount (ui w')
     = Z.of_nat
         (List.length (filter (Store.follow_of target) (follows (remote w)))).
Proof.
  intros Htarget Hviewer Hsession Hnet Hnodup.
  unfold fire, Profile.effect, Profile.checkAuth, Profile.fetchProfile.
  rewrite Hviewer. simpl truthy. rewrite Htarget.
  unfold auth_getSession, profiles_select_single, posts_select_by_user,
    follows_select_followers, follows_select_following,
    follows_select_single, navigate, console_error, Profile.setCurrentUser,
    Profile.setProfile, Profile.setPosts, Profile.setFollowersCount,
    Profile.setFollowingCount, Profile.setIsFollowing, Profile.setIsLoading,
    spawn, try_finally, try_catch, update, tell, await, bind, ret,
    Store.get_session, Store.profiles_select_single,
    Store.posts_select_by_user, Store.follows_select_followers,
    Store.follows_select_following, Store.follows_select_single, emitted.
  destruct w as [u r n l]. simpl in Hviewer, Hsession, Hnet, Hnodup.
  subst n. cbn. rewrite Hsession. cbn.
  flatten_log. rewrite skipn_length_app.
  repeat split.
  rewrite (single_row _ _ _
             (follow_is_row (ProfileRow.id viewer) target) _ Hnodup).
  now destruct (existsb _ (follows r)).
Qed.

(** * Further properties of the handlers *)

(** ** Running a handler by cases *)

Ltac unfold_calls :=
  unfold auth_getSession, auth_getUser, profiles_select_single,
    posts_select_all, posts_select_by_user, posts_insert, posts_delete,
    likes_select, likes_select_single, likes_insert, likes_delete,
    comments_select, comments_insert, follows_select_followers,
    follows_select_following, follows_select_single, follows_insert,
    follows_delete, throw_if_error, toast_error, toast_success, navigate,
    console_error, spawn, try_finally, try_catch, update, tell, throw,
    await, bind, ret, outcome_of;
  unfold Store.get_session, Store.get_user, Store.profiles_select_single,
    Store.posts_select_all, Store.posts_select_by_user, Store.posts_insert,
    Store.posts_delete, Store.likes_select, Store.likes_select_single,
    Store.likes_delete, Store.comments_select, Store.comments_insert,
    Store.follows_select_followers, Store.follows_select_following,
    Store.follows_select_single, Store.follows_delete.

(** One case per fault the network can have in stock for each call. *)
Ltac by_faults :=
  repeat match goal with
         | |- context [match ?n with [] => _ | _ :: _ => _ end] =>
             is_var n; destruct n as [|[[?e|?e]|] ?n]; cbn
         end.

(** ** Completion *)

(** A [finally] block that writes the state decides the final state, and
    leaves the completion of the body as it is. *)
Lemma try_finally_update {S A} (body : M S A) (f : S -> S) (w : world S) :
  try_finally body (update f) w = (fst (body w), set_ui f (snd (body w))).
Proof. unfold try_finally, update. now destruct (body w). Qed.

Lemma update_then_try_finally {S A} (g f : S -> S) (body : M S A)
  (w : world S) :
  (update g ;; try_finally body (update f)) w
  = (fst (body (set_ui g w)), set_ui f (snd (body (set_ui g w)))).
Proof. unfold bind, update. simpl. apply try_finally_update. Qed.

(** A [catch] block that completes makes the whole [try] complete. *)
Lemma try_catch_completes {S} (body : M S unit) (handler : Error -> M S unit)
  (w : world S) :
  (forall e w', fst (handler e w') = Normal tt) ->
  fst (try_catch body handler w) = Normal tt.
Proof.
  intros Hhandler. unfold try_catch.
  destruct (body w) as [[[]|e] w1]; [reflexivity | apply Hhandler].
Qed.

(** ** Ordered reads *)

Lemma insert_by_length {A} (key : A -> nat) (a : A) (l : list A) :
  List.length (Store.insert_by key a l) = S (List.length l).
Proof.
  induction l as [|b l IH]; simpl; [reflexivity |].
  destruct (Nat.leb (key a) (key b)); simpl; [reflexivity | now rewrite IH].
Qed.

Lemma ascending_length {A} (key : A -> nat) (l : list A) :
  List.length (Store.ascending key l) = List.length l.
Proof.
  unfold Store.ascending. induction l as [|a l IH]; simpl; [reflexivity |].
  now rewrite insert_by_length, IH.
Qed.

Lemma insert_by_last {A} (key : A -> nat) (a x : A) (l : list A) :
  key a <= key x ->
  Store.insert_by key a (l ++ [x]) = Store.insert_by key a l ++ [x].
Proof.
  intros Hle. induction l as [|b l IH]; simpl.
  - now rewrite (proj2 (Nat.leb_le _ _) Hle).
  - destruct (Nat.leb (key a) (key b)); simpl; [reflexivity | now rewrite IH].
Qed.

(** A row stamped no earlier than the others is read last in ascending
    order. *)
Lemma ascending_last {A} (key : A -> nat) (x : A) (l : list A) :
  Forall (fun a => key a <= key x) l ->
  Store.ascending key (l ++ [x]) = Store.ascending key l ++ [x].
Proof.
  unfold Store.ascending. induction 1 as [|a l Ha Hl IH]; simpl.
  - reflexivity.
  - rewrite IH. now apply insert_by_last.
Qed.

(** ** Trimmed text *)

Lemma trim_start_fixed (t : text) :
  match t with [] => True | c :: _ => is_ws c = false end ->
  trim_start t = t.
Proof. destruct t as [|c t]; simpl; [reflexivity | now intros ->]. Qed.

(** What [trim_start] drops is a blank prefix. *)
Lemma trim_start_suffix (t : text) :
  exists prefix, t = prefix ++ trim_start t /\ blank prefix = true.
Proof.
  induction t as [|c t (prefix & Heq & Hblank)]; simpl.
  - exists []. auto.
  - destruct (is_ws c) eqn:Hc.
    + exists (c :: prefix). simpl. unfold blank in *. simpl.
      rewrite Hc, Hblank. split; [now f_equal | reflexivity].
    + exists []. auto.
Qed.

Lemma trim_trimmed (t : text) : trimmed (trim t).
Proof.
  unfold trimmed, trim. rewrite rev_involutive.
  set (u := trim_start (rev (trim_start t))).
  assert (Hu : match u with [] => True | c :: _ => is_ws c = false end)
    by apply trim_start_head.
  split; [| exact Hu].
  destruct (trim_start_suffix (rev (trim_start t))) as (prefix & Heq & _).
  fold u in Heq.
  pose proof (trim_start_head t) as Hhead.
  destruct (rev u) as [|c v] eqn:Hrev; [exact I |].
  assert (Hlast : rev (rev (trim_start t)) = rev u ++ rev prefix)
    by now rewrite Heq, rev_app_distr.
  rewrite rev_involutive, Hrev in Hlast. simpl in Hlast.
  now rewrite Hlast in Hhead.
Qed.

(** Trimming a trimmed text changes nothing. *)
Lemma trim_fixed (t : text) : trimmed t -> trim t = t.
Proof.
  intros [Hhead Hlast]. unfold trim.
  rewrite (trim_start_fixed t Hhead), (trim_start_fixed (rev t) Hlast).
  apply rev_involutive.
Qed.

(** ** The card *)

Ltac unfold_card :=
  unfold fire, emitted, PostCardCalls.like_call, PostCardCalls.comment_call,
    PostCardCalls.delete_call, PostCard.effect, PostCard.handleLike,
    PostCard.handleComment, PostCard.handleDelete,
    PostCard.fetchLikesAndComments, PostCard.checkIfLiked;
  unfold PostCard.setIsLiked, PostCard.setLikesCount,
    PostCard.setCommentsCount, PostCard.setComments, PostCard.setNewComment,
    PostCard.setIsLoadingComment.

(** X1.  Without a known viewer the card makes no call and keeps its
    state: the like handler asks to log in, the comment handler does
    nothing, whatever the text in the field. *)
Theorem anonymous_viewer_changes_nothing
  (post : joined PostRow.t) (currentUserId : option string)
  (w : world PostCard.state) :
  truthy currentUserId = false ->
  (let w' := fire (PostCard.handleLike post currentUserId) w in
   emitted w w' = [ToastError "Please log in to like posts"]
   /\ ui w' = ui w /\ remote w' = remote w /\ net w' = net w)
  /\ (let w' := fire (PostCard.handleComment post currentUserId) w in
      emitted w w' = [PreventDefault]
      /\ ui w' = ui w /\ remote w' = remote w /\ net w' = net w).
Proof.
  intros Hviewer. unfold_card. rewrite Hviewer. unfold_calls.
  destruct w as [s r n l]; cbn. rewrite !skipn_length_app.
  now destruct s.
Qed.

Lemma anonymous_viewer_changes_nothing_witness :
  (let w := Sample.world_of Sample.card Sample.store [] in
   let w' := fire (PostCard.handleLike Sample.bobs_post None) w in
   emitted w w' = [ToastError "Please log in to like posts"]
   /\ ui w' = ui w /\ remote w' = remote w /\ net w' = net w)
  /\ (let w := Sample.world_of Sample.card Sample.store [] in
      let w' := fire (PostCard.handleComment Sample.bobs_post None) w in
      emitted w w' = [PreventDefault]
      /\ ui w' = ui w /\ remote w' = remote w /\ net w' = net w).
Proof.
  apply (anonymous_viewer_changes_nothing Sample.bobs_post None
           (Sample.world_of Sample.card Sample.store [])).
  reflexivity.
Defined.

(** X2.  A card that mirrors a store with one row per like, a known viewer
    and no fault of the network: the call of the like toggle succeeds, the
    like of the viewer is in the store afterwards exactly when it was not
    before, and the card mirrors the store again, which still has one row
    per like. *)
Theorem agreed_like_toggle
  (post : joined PostRow.t) (currentUserId : option string)
  (w : world PostCard.state) :
  PostCardCalls.agrees post currentUserId w ->
  NoDup (likes (remote w)) ->
  truthy currentUserId = true ->
  hd None (net w) = None ->
  let w' := fire (PostCard.handleLike post currentUserId) w in
  let mine :=
    Store.like_is (PostRow.id (fst post)) (narrowed currentUserId) in
  PostCardCalls.like_call post currentUserId w = Some Succeeds
  /\ existsb mine (likes (remote w')) = negb (existsb mine (likes (remote w)))
  /\ PostCardCalls.agrees post currentUserId w'
  /\ NoDup (likes (remote w')).
Proof.
  intros Hagrees Hnodup Hviewer Hnet w' mine.
  pose proof (agreed_like_meets_no_store_error post currentUserId w
                Hagrees Hviewer Hnet) as Hcall.
  destruct (handleLike_keeps_agreement post currentUserId w
              Hagrees Hnodup Hcall) as [Hagrees' Hnodup'].
  destruct (handleLike_resolved post currentUserId w (or_introl Hcall))
    as (Hflip & _).
  fold w' in Hagrees', Hnodup', Hflip.
  split; [exact Hcall |].
  split; [| split; [exact Hagrees' | exact Hnodup']].
  destruct Hagrees as [Hliked _]. destruct Hagrees' as [Hliked' _].
  unfold mine. now rewrite <- Hliked', <- Hliked.
Qed.

Lemma agreed_like_toggle_witness :
  let w := Sample.world_of Sample.card Sample.store [] in
  let w' := fire (PostCard.handleLike Sample.bobs_post Sample.viewer) w in
  PostCardCalls.like_call Sample.bobs_post Sample.viewer w = Some Succeeds
  /\ existsb (Store.like_is "p1" "alice") (likes (remote w'))
     = negb (existsb (Store.like_is "p1" "alice") (likes (remote w)))
  /\ PostCardCalls.agrees Sample.bobs_post Sample.viewer w'
  /\ NoDup (likes (remote w')).
Proof.
  apply (agreed_like_toggle Sample.bobs_post Sample.viewer
           (Sample.world_of Sample.card Sample.store [])).
  - split; reflexivity.
  - repeat constructor; simpl; intuition discriminate.
  - reflexivity.
  - reflexivity.
Defined.

(** X3.  Once the effect of the card has run for a known viewer, with no
    fault on the way and one row per like in the store, the card mirrors
    the store: [isLiked] and [likesCount] as the likes have it, the comments
    of the post in ascending order of creation and [commentsCount] their
    number.  The store is only read. *)
Theorem loaders_mirror_store
  (post : joined PostRow.t) (currentUserId : option string)
  (w : world PostCard.state) :
  truthy currentUserId = true ->
  net w = [] ->
  NoDup (likes (remote w)) ->
  let w' := fire (fun _ => PostCard.effect post currentUserId) w in
  let stored := comments_on (PostRow.id (fst post)) (remote w) in
  PostCardCalls.agrees post currentUserId w'
  /\ map fst (PostCard.comments (ui w'))
     = Store.ascending CommentRow.created_at stored
  /\ PostCard.commentsCount (ui w') = Z.of_nat (List.length stored)
  /\ remote w' = remote w.
Proof.
  intros Hviewer Hnet Hnodup w' stored.
  split; [now apply effect_agrees |].
  subst w' stored. unfold_card. rewrite Hviewer. unfold_calls.
  unfold comments_on, Store.with_profile.
  destruct w as [s r n l]. simpl in Hnet. subst n. cbn.
  rewrite length_map, ascending_length, map_map. simpl. rewrite map_id.
  now destruct r.
Qed.

Lemma loaders_mirror_store_witness :
  let w := Sample.world_of PostCard.initial Sample.store [] in
  let w' := fire (fun _ => PostCard.effect Sample.bobs_post Sample.viewer) w in
  PostCardCalls.agrees Sample.bobs_post Sample.viewer w'
  /\ map fst (PostCard.comments (ui w')) = []
  /\ PostCard.commentsCount (ui w') = 0%Z
  /\ remote w' = remote w.
Proof.
  apply (loaders_mirror_store Sample.bobs_post Sample.viewer
           (Sample.world_of PostCard.initial Sample.store [])).
  - reflexivity.
  - reflexivity.
  - repeat constructor; simpl; intuition discriminate.
Defined.





(** X6.  A comment with non-blank text of a known viewer always completes
    with the loading flag down.  When its insertion succeeds, the field is
    emptied and success is announced, without any error notification,
    whatever becomes of the reads that follow: their failure does not reach
    the handler. *)
Theorem comment_settles
  (post : joined PostRow.t) (currentUserId : option string)
  (w : world PostCard.state) :
  truthy currentUserId = true ->
  blank (PostCard.newComment (ui w)) = false ->
  let w' := fire (PostCard.handleComment post currentUserId) w in
  fst (PostCard.handleComment post currentUserId (ui w) w) = Normal tt
  /\ PostCard.isLoadingComment (ui w') = false
  /\ (PostCardCalls.comment_call post currentUserId w = Some Succeeds ->
      PostCard.newComment (ui w') = []
      /\ In (ToastSuccess "Comment added!") (emitted w w')
      /\ existsb is_toast_error (emitted w w') = false).
Proof.
  intros Hviewer Hblank.
  assert (Htext : truthy_text (trim (PostCard.newComment (ui w))) = true)
    by now rewrite truthy_trim, Hblank.
  revert Htext. clear Hblank.
  unfold_card. rewrite Hviewer. unfold_calls.
  destruct w as [s r n l]; cbn. intros ->. cbn.
  destruct n as [|[[e|e]|] n]; cbn; by_faults;
    (split; [reflexivity | split; [reflexivity |]]);
    try discriminate; intros _;
    flatten_log; rewrite skipn_length_app; simpl; auto 10.
Qed.

Lemma comment_settles_witness :
  let w := Sample.world_of Sample.card Sample.store
             [None; Some (Rejects Sample.boom)] in
  let w' := fire (PostCard.handleComment Sample.bobs_post Sample.viewer) w in
  fst (PostCard.handleComment Sample.bobs_post Sample.viewer (ui w) w)
  = Normal tt
  /\ PostCard.isLoadingComment (ui w') = false
  /\ PostCard.newComment (ui w') = []
  /\ In (ToastSuccess "Comment added!") (emitted w w')
  /\ existsb is_toast_error (emitted w w') = false.
Proof.
  destruct (comment_settles Sample.bobs_post Sample.viewer
              (Sample.world_of Sample.card Sample.store
                 [None; Some (Rejects Sample.boom)]) eq_refl eq_refl)
    as (Hdone & Hflag & Hsent).
  split; [exact Hdone | split; [exact Hflag | exact (Hsent eq_refl)]].
Defined.

(** X7.  The deletion tells the parent to reload exactly when its call
    succeeds.  Then the store holds no post with the id of the card, success
    is announced and the posts with other ids are kept; the state of the
    card is never written. *)
Theorem delete_tells_parent_when_deleted
  (post : joined PostRow.t) (w : world PostCard.state) :
  let w' := fire (fun _ => PostCard.handleDelete post) w in
  let post_id := PostRow.id (fst post) in
  (In (Invoke "onDelete") (emitted w w')
   <-> PostCardCalls.delete_call post w = Some Succeeds)
  /\ (PostCardCalls.delete_call post w = Some Succeeds ->
      emitted w w' = [Request (PostsDelete post_id);
                      ToastSuccess "Post deleted!"; Invoke "onDelete"]
      /\ posts (remote w')
         = filter (fun p => negb (String.eqb (PostRow.id p) post_id))
             (posts (remote w))
      /\ existsb (fun p => String.eqb (PostRow.id p) post_id)
           (posts (remote w')) = false)
  /\ ui w' = ui w.
Proof.
  unfold_card. unfold_calls. destruct w as [s r n l]; cbn.
  destruct n as [|[[e|e]|] n]; cbn; flatten_log; rewrite skipn_length_app;
    (split; [split | split; [| reflexivity]]); try discriminate.
  all: lazymatch goal with
       | |- In _ _ -> _ =>
           try (intros _; reflexivity); simpl; intuition discriminate
       | |- _ -> In _ _ => intros _; simpl; auto
       | |- _ -> _ /\ _ =>
           intros _; split; [reflexivity | split; [reflexivity |]]
       end.
  all: induction (posts r) as [|p ps IH]; simpl; [reflexivity |];
    destruct (String.eqb (PostRow.id p) (PostRow.id (fst post))) eqn:Hid;
    simpl; [exact IH | now rewrite Hid].
Qed.

Lemma delete_tells_parent_when_deleted_witness :
  let w := Sample.world_of Sample.card Sample.store [] in
  let w' := fire (fun _ => PostCard.handleDelete Sample.bobs_post) w in
  emitted w w' = [Request (PostsDelete "p1"); ToastSuccess "Post deleted!";
                  Invoke "onDelete"]
  /\ posts (remote w') = []
  /\ existsb (fun p => String.eqb (PostRow.id p) "p1") (posts (remote w'))
     = false.
Proof.
  destruct (delete_tells_parent_when_deleted Sample.bobs_post
              (Sample.world_of Sample.card Sample.store []))
    as (_ & Hdeleted & _).
  apply Hdeleted. reflexivity.
Defined.

(** ** What gets inserted *)

Ltac unfold_composer :=
  unfold fire, emitted, CreatePostCalls.submission_of,
    CreatePostCalls.insert_call, CreatePost.handleSubmit;
  unfold CreatePost.setIsLoading, CreatePost.setContent.

Lemma truthy_text_not_nil (t : text) : truthy_text t = true -> t <> [].
Proof. now destruct t. Qed.

(** X8.  The text of every insertion the composer and the comment form
    ask for is the trimmed content of the field: it is not empty and has no
    whitespace at either end.  A comment is inserted on the post of the
    card, in the name of the viewer. *)
Theorem inserted_text_is_trimmed
  (post : joined PostRow.t) (currentUserId : option string) :
  (forall (w : world CreatePost.state) (user_id : string) (c : text),
      let w' := fire CreatePost.handleSubmit w in
      In (PostsInsert user_id c) (requests (emitted w w')) ->
      c = trim (CreatePost.content (ui w)) /\ c <> [] /\ trimmed c)
  /\ (forall (w : world PostCard.state) (post_id user_id : string) (c : text),
         let w' := fire (PostCard.handleComment post currentUserId) w in
         In (CommentsInsert post_id user_id c) (requests (emitted w w')) ->
         c = trim (PostCard.newComment (ui w)) /\ c <> [] /\ trimmed c
         /\ post_id = PostRow.id (fst post)
         /\ user_id = narrowed currentUserId).
Proof.
  split.
  - intros w user_id c.
    pose proof (truthy_text_not_nil (trim (CreatePost.content (ui w))))
      as Hnil.
    pose proof (trim_trimmed (CreatePost.content (ui w))) as Htrimmed.
    revert Hnil Htrimmed. unfold_composer. unfold_calls.
    destruct w as [s [[user|] ? ? ? ? ? ?] n l]; cbn;
      destruct (truthy_text (trim (CreatePost.content s))); cbn;
      by_faults; flatten_log; rewrite skipn_length_app; simpl;
      intros Hnil Htrimmed Hin; intuition (try discriminate);
      match goal with
      | H : PostsInsert _ _ = PostsInsert _ _ |- _ => injection H as <- <-
      end; auto.
  - intros w post_id user_id c.
    pose proof (truthy_text_not_nil (trim (PostCard.newComment (ui w))))
      as Hnil.
    pose proof (trim_trimmed (PostCard.newComment (ui w))) as Htrimmed.
    revert Hnil Htrimmed. unfold_card. unfold_calls.
    destruct w as [s r n l]; cbn;
      destruct (truthy currentUserId);
      destruct (truthy_text (trim (PostCard.newComment s))); cbn;
      by_faults; flatten_log; rewrite skipn_length_app; simpl;
      intros Hnil Htrimmed Hin; intuition (try discriminate);
      match goal with
      | H : CommentsInsert _ _ _ = CommentsInsert _ _ _ |- _ =>
          injection H as <- <- <-
      end; auto.
Qed.

Lemma inserted_text_is_trimmed_witness :
  (let w := Sample.world_of (Sample.composer Sample2.padded) Sample.store [] in
   Sample.hi = trim (CreatePost.content (ui w))
   /\ Sample.hi <> [] /\ trimmed Sample.hi)
  /\ (let w := Sample.world_of Sample2.padded_card Sample.store [] in
      Sample.hi = trim (PostCard.newComment (ui w))
      /\ Sample.hi <> [] /\ trimmed Sample.hi
      /\ "p1"%string = PostRow.id (fst Sample.bobs_post)
      /\ "alice"%string = narrowed Sample.viewer).
Proof.
  destruct (inserted_text_is_trimmed Sample.bobs_post Sample.viewer)
    as [Hpost Hcomment].
  split.
  - apply (Hpost (Sample.world_of (Sample.composer Sample2.padded)
                    Sample.store []) "alice"%string Sample.hi).
    simpl. auto.
  - apply (Hcomment (Sample.world_of Sample2.padded_card Sample.store [])
             "p1"%string "alice"%string Sample.hi).
    simpl. auto.
Defined.

(** ** Posting and reloading *)

(** X9.  A submission with non-blank content tells the parent to reload
    exactly when the post got inserted.  Then the field is emptied and the
    store has gained one post, owned by the user of the session, with the
    trimmed content, stamped with the clock of the store.  Otherwise the
    content stays in the field. *)
Theorem submit_tells_parent_when_posted (w : world CreatePost.state) :
  blank (CreatePost.content (ui w)) = false ->
  let w' := fire CreatePost.handleSubmit w in
  let posted :=
    CreatePostCalls.submission_of (ui w) w = CreatePostCalls.Posted in
  (In (Invoke "onPostCreated") (emitted w w') <-> posted)
  /\ (posted ->
      CreatePost.content (ui w') = []
      /\ exists user,
          session (remote w) = Some user
          /\ posts (remote w')
             = posts (remote w)
               ++ [{| PostRow.id := Store.fresh_id (remote w);
                      PostRow.user_id := session_user_id user;
                      PostRow.content := trim (CreatePost.content (ui w));
                      PostRow.created_at := clock (remote w) |}])
  /\ (~ posted -> CreatePost.content (ui w') = CreatePost.content (ui w)).
Proof.
  intros Hblank.
  assert (Htext : truthy_text (trim (CreatePost.content (ui w))) = true)
    by now rewrite truthy_trim, Hblank.
  revert Htext. clear Hblank.
  unfold_composer. unfold_calls.
  destruct w as [s [[user|] ? ? ? ? ? ?] n l]; cbn; intros ->; cbn;
    by_faults; flatten_log; rewrite skipn_length_app;
    (split; [split | split]).
  all: lazymatch goal with
       | |- In _ _ -> _ =>
           try (intros _; reflexivity); simpl; intuition discriminate
       | |- _ -> In _ _ => try discriminate; intros _; simpl; auto 10
       | |- ~ _ -> _ => try reflexivity; intros H; now destruct H
       | |- _ -> _ /\ _ =>
           first [ discriminate
                 | intros _; split; [reflexivity |];
                   eexists; split; reflexivity ]
       end.
Qed.

Lemma submit_tells_parent_when_posted_witness :
  let w := Sample.world_of (Sample.composer Sample2.padded) Sample.store [] in
  let w' := fire CreatePost.handleSubmit w in
  In (Invoke "onPostCreated") (emitted w w')
  /\ CreatePost.content (ui w') = []
  /\ posts (remote w')
     = [fst Sample.bobs_post;
        {| PostRow.id := "row-1"; PostRow.user_id := "alice";
           PostRow.content := Sample.hi; PostRow.created_at := 1 |}].
Proof.
  destruct (submit_tells_parent_when_posted
              (Sample.world_of (Sample.composer Sample2.padded)
                 Sample.store []) eq_refl)
    as (Htold & Hposted & _).
  split; [apply Htold; reflexivity |].
  destruct (Hposted eq_refl) as (Hfield & user & Huser & Hposts).
  split; [exact Hfield |].
  injection Huser as <-. exact Hposts.
Defined.

(** X10.  The reload of the Feed always completes with the loading flag
    down, with the read of all posts as its only request, and reports to
    the console only.  A read that succeeds replaces the list with the posts
    of the store, newest first, each with the profile of its owner; a read
    that fails keeps the list the view had and logs the failure. *)
Theorem reload_settles (w : world Feed.state) :
  let w' := fire (fun _ => Feed.fetchPosts) w in
  fst (Feed.fetchPosts w) = Normal tt
  /\ Feed.isLoading (ui w') = false
  /\ Feed.currentUser (ui w') = Feed.currentUser (ui w)
  /\ requests (emitted w w') = [PostsSelectAll]
  /\ forallb is_unobtrusive (emitted w w') = true
  /\ (posts_read w = Succeeds ->
      Feed.posts (ui w')
      = map (Store.with_profile (remote w) PostRow.user_id)
          (Store.descending PostRow.created_at (posts (remote w))))
  /\ (forall e,
         failure (Some (posts_read w)) = Some e ->
         Feed.posts (ui w') = Feed.posts (ui w)
         /\ In (ConsoleError "Error fetching posts:" e) (emitted w w')).
Proof.
  unfold fire, emitted, posts_read, Feed.fetchPosts, Feed.setIsLoading,
    Feed.setPosts.
  unfold_calls.
  destruct w as [s r n l]; cbn.
  destruct n as [|[[e|e]|] n]; cbn; flatten_log; rewrite skipn_length_app;
    repeat apply conj; try reflexivity; try discriminate;
    intros e' [= <-]; simpl; auto.
Qed.

Lemma reload_settles_witness :
  let w := Sample.world_of Feed.initial Sample.store
             [Some (Fails Sample.boom)] in
  let w' := fire (fun _ => Feed.fetchPosts) w in
  Feed.posts (ui w') = []
  /\ In (ConsoleError "Error fetching posts:" Sample.boom) (emitted w w').
Proof.
  destruct (reload_settles
              (Sample.world_of Feed.initial Sample.store
                 [Some (Fails Sample.boom)]))
    as (_ & _ & _ & _ & _ & _ & Hfailed).
  apply (Hfailed Sample.boom). reflexivity.
Defined.

(** What a submission that gets through does to the store. *)
Lemma handleSubmit_store (w : world CreatePost.state) :
  blank (CreatePost.content (ui w)) = false ->
  CreatePostCalls.submission_of (ui w) w = CreatePostCalls.Posted ->
  let w' := fire CreatePost.handleSubmit w in
  exists author,
    session (remote w) = Some author
    /\ posts (remote w')
       = posts (remote w)
         ++ [{| PostRow.id := Store.fresh_id (remote w);
                PostRow.user_id := session_user_id author;
                PostRow.content := trim (CreatePost.content (ui w));
                PostRow.created_at := clock (remote w) |}]
    /\ profiles (remote w') = profiles (remote w).
Proof.
  intros Hblank.
  assert (Htext : truthy_text (trim (CreatePost.content (ui w))) = true)
    by now rewrite truthy_trim, Hblank.
  revert Htext. clear Hblank.
  unfold_composer. unfold_calls.
  destruct w as [s [[user|] ? ? ? ? ? ?] n l]; cbn; intros ->; cbn;
    by_faults; try discriminate; intros _; eexists; repeat split.
Qed.

Lemma descending_first {A} (key : A -> nat) (x : A) (l : list A) :
  Forall (fun a => key a <= key x) l ->
  Store.descending key (l ++ [x]) = x :: Store.descending key l.
Proof.
  intros Hl. unfold Store.descending.
  rewrite (ascending_last key x l Hl), rev_app_distr. reflexivity.
Qed.

(** X11.  Post, then reload: when a submission gets through on a store
    whose posts are stamped no later than its clock, the next reload of the
    Feed, with no fault on the way, lists the new post first, with the
    trimmed content and the profile of its author, and the posts the store
    already had after it, in the order a reload would have listed them
    before. *)
Theorem posted_is_listed_first
  (w : world CreatePost.state) (feed : Feed.state) :
  blank (CreatePost.content (ui w)) = false ->
  CreatePostCalls.submission_of (ui w) w = CreatePostCalls.Posted ->
  stamped (remote w) ->
  let w' := fire CreatePost.handleSubmit w in
  let reloaded :=
    fire (fun _ => Feed.fetchPosts)
      {| ui := feed; remote := remote w'; net := []; log := [] |} in
  exists author,
    session (remote w) = Some author
    /\ Feed.posts (ui reloaded)
       = ({| PostRow.id := Store.fresh_id (remote w);
             PostRow.user_id := session_user_id author;
             PostRow.content := trim (CreatePost.content (ui w));
             PostRow.created_at := clock (remote w) |},
          Store.profile_of (remote w) (session_user_id author))
         :: map (Store.with_profile (remote w) PostRow.user_id)
              (Store.descending PostRow.created_at (posts (remote w))).
Proof.
  intros Hblank Hposted Hstamped w' reloaded.
  destruct (handleSubmit_store w Hblank Hposted)
    as (author & Hauthor & Hposts & Hprofiles).
  exists author. split; [exact Hauthor |].
  subst reloaded. fold w' in Hposts, Hprofiles.
  unfold fire, Feed.fetchPosts, Feed.setIsLoading, Feed.setPosts.
  unfold_calls. cbn. rewrite Hposts.
  rewrite descending_first by exact Hstamped.
  unfold Store.with_profile, Store.profile_of. simpl. rewrite Hprofiles.
  reflexivity.
Qed.

Lemma posted_is_listed_first_witness :
  let w := Sample.world_of (Sample.composer Sample2.padded) Sample.store [] in
  let w' := fire CreatePost.handleSubmit w in
  let reloaded :=
    fire (fun _ => Feed.fetchPosts)
      {| ui := Feed.initial; remote := remote w'; net := []; log := [] |} in
  exists author,
    session (remote w) = Some author
    /\ Feed.posts (ui reloaded)
       = ({| PostRow.id := Store.fresh_id (remote w);
             PostRow.user_id := session_user_id author;
             PostRow.content := trim Sample2.padded;
             PostRow.created_at := clock (remote w) |},
          Store.profile_of (remote w) (session_user_id author))
         :: map (Store.with_profile (remote w) PostRow.user_id)
              (Store.descending PostRow.created_at (posts (remote w))).
Proof.
  apply (posted_is_listed_first
           (Sample.world_of (Sample.composer Sample2.padded) Sample.store [])
           Feed.initial).
  - reflexivity.
  - reflexivity.
  - repeat constructor.
Defined.

(** ** The Feed on activation *)

(** X12.  Activated with a session whose user has one profile row, and no
    fault on the way, the Feed ends on the page of that viewer: the empty
    notice when the store has no post, and otherwise one card per post of
    the store, newest first, each given the id of the viewer. *)
Theorem feed_activation_shows_posts
  (w : world Feed.state) (s : Session) (viewer : ProfileRow.t) :
  session (remote w) = Some s ->
  profiles_of (session_user_id s) (remote w) = [viewer] ->
  net w = [] ->
  let w' := fire (fun _ => Feed.effect) w in
  let listed :=
    map (Store.with_profile (remote w) PostRow.user_id)
      (Store.descending PostRow.created_at (posts (remote w))) in
  FeedView.view (ui w')
  = FeedView.Page viewer
      (match listed with
       | [] => FeedView.NoPosts
       | _ :: _ =>
           FeedView.Cards
             (map (fun post => (post, Some (ProfileRow.id viewer))) listed)
       end)
  /\ requests (emitted w w')
     = [AuthGetSession; ProfilesSelectSingle (session_user_id s);
        PostsSelectAll].
Proof.
  intros Hsession Hprofile Hnet.
  unfold fire, emitted, profiles_of in *.
  unfold Feed.effect, Feed.checkAuth, Feed.fetchPosts, Feed.setCurrentUser,
    Feed.setIsLoading, Feed.setPosts, FeedView.view.
  unfold_calls.
  destruct w as [u r n l]. simpl in Hsession, Hprofile, Hnet. subst n. cbn.
  rewrite Hsession. cbn. rewrite Hprofile. cbn.
  flatten_log. rewrite skipn_length_app. split; reflexivity.
Qed.

Lemma feed_activation_shows_posts_witness :
  let w := Sample.world_of Feed.initial Sample.store [] in
  let w' := fire (fun _ => Feed.effect) w in
  FeedView.view (ui w')
  = FeedView.Page Sample.alice
      (FeedView.Cards [(Sample.bobs_post, Some "alice"%string)]).
Proof.
  apply (feed_activation_shows_posts
           (Sample.world_of Feed.initial Sample.store [])
           {| session_user_id := "alice" |} Sample.alice);
    reflexivity.
Defined.

(** X13.  Activated with a session whose user does not have exactly one
    profile row, and no fault on the way, the Feed loads the posts and takes
    its loading flag down, yet stays on the full-page spinner: the render
    shows nothing else while there is no viewer. *)
Theorem feed_without_profile_spins
  (w : world Feed.state) (s : Session) :
  session (remote w) = Some s ->
  List.length (profiles_of (session_user_id s) (remote w)) <> 1 ->
  net w = [] ->
  let w' := fire (fun _ => Feed.effect) w in
  FeedView.view (ui w') = FeedView.Spinner
  /\ Feed.isLoading (ui w') = false
  /\ Feed.posts (ui w')
     = map (Store.with_profile (remote w) PostRow.user_id)
         (Store.descending PostRow.created_at (posts (remote w)))
  /\ existsb is_toast_error (emitted w w') = false.
Proof.
  intros Hsession Hprofile Hnet.
  unfold fire, emitted, profiles_of in *.
  unfold Feed.effect, Feed.checkAuth, Feed.fetchPosts, Feed.setCurrentUser,
    Feed.setIsLoading, Feed.setPosts, FeedView.view.
  unfold_calls.
  destruct w as [u r n l]. simpl in Hsession, Hprofile, Hnet. subst n. cbn.
  rewrite Hsession. cbn.
  destruct (filter _ (profiles r)) as [|p [|q rows]]; cbn;
    try (now destruct Hprofile);
    flatten_log; rewrite skipn_length_app; repeat split.
Qed.

Lemma feed_without_profile_spins_witness :
  let w := Sample.world_of Feed.initial Sample2.no_profile [] in
  let w' := fire (fun _ => Feed.effect) w in
  FeedView.view (ui w') = FeedView.Spinner
  /\ Feed.isLoading (ui w') = false
  /\ Feed.posts (ui w') = [Sample.bobs_post]
  /\ existsb is_toast_error (emitted w w') = false.
Proof.
  apply (feed_without_profile_spins
           (Sample.world_of Feed.initial Sample2.no_profile [])
           {| session_user_id := "alice" |}).
  - reflexivity.
  - simpl. discriminate.
  - reflexivity.
Defined.

(** ** The Profile view *)

Ltac unfold_profile :=
  unfold fire, emitted, ProfileCalls.follow_call, Profile.effect,
    Profile.checkAuth, Profile.fetchProfile, Profile.handleFollow;
  unfold Profile.setCurrentUser, Profile.setProfile, Profile.setPosts,
    Profile.setIsFollowing, Profile.setFollowersCount,
    Profile.setFollowingCount, Profile.setIsLoading.

(** Goals [within allowed keep m], by the shape of [m]. *)
Ltac stay_within :=
  repeat
    (lazymatch goal with
     | |- within _ _ (spawn _) => apply within_spawn
     | |- within _ _ (bind _ _) => apply within_bind
     | |- within _ _ (try_finally _ _) => apply within_try_finally
     | |- within _ _ (try_catch _ _) => apply within_try_catch
     | |- within _ _ (ret _) => apply within_ret
     | |- within _ _ (throw _) => apply within_throw
     | |- within _ _ (tell _) => apply within_tell
     | |- within _ _ (update _) => apply within_update
     | |- within _ _ (await _ _) => apply within_await
     | |- within _ _ (match ?x with _ => _ end) => destruct x
     end;
     try assumption; try reflexivity; intros).

(** The load of a profile reports to the console only. *)
Lemma fetchProfile_unobtrusive (userId : option string)
  (render : Profile.state) :
  within is_unobtrusive (fun _ _ => True) (Profile.fetchProfile userId render).
Proof.
  unfold Profile.fetchProfile.
  unfold profiles_select_single, posts_select_by_user,
    follows_select_followers, follows_select_following,
    follows_select_single, console_error, Profile.setProfile,
    Profile.setPosts, Profile.setFollowersCount, Profile.setFollowingCount,
    Profile.setIsFollowing, Profile.setIsLoading.
  destruct (truthy userId); cbn [negb]; stay_within; auto.
Qed.

(** X14.  The load of a profile with a target always completes with the
    loading flag down, whichever of its reads fail and however; it leaves no
    notification and no navigation, only its requests and, for a read that
    throws, one message on the console. *)
Theorem profile_load_settles
  (userId : option string) (render : Profile.state)
  (w : world Profile.state) :
  truthy userId = true ->
  let w' := snd (Profile.fetchProfile userId render w) in
  fst (Profile.fetchProfile userId render w) = Normal tt
  /\ Profile.isLoading (ui w') = false
  /\ forallb is_unobtrusive (emitted w w') = true.
Proof.
  intros Hroute.
  destruct (fetchProfile_unobtrusive userId render w)
    as (evs & Hlog & Hevents & _).
  cbv zeta. rewrite (emitted_app _ _ _ Hlog). clear Hlog.
  unfold Profile.fetchProfile. rewrite Hroute. cbn [negb].
  unfold Profile.setIsLoading. rewrite update_then_try_finally.
  cbn [fst snd].
  split; [| split; [reflexivity | exact Hevents]].
  apply try_catch_completes. reflexivity.
Qed.

Lemma profile_load_settles_witness :
  let w := Sample.world_of Profile.initial Sample.store
             [None; Some (Rejects Sample.boom)] in
  let w' := snd (Profile.fetchProfile Sample.target Profile.initial w) in
  fst (Profile.fetchProfile Sample.target Profile.initial w) = Normal tt
  /\ Profile.isLoading (ui w') = false
  /\ forallb is_unobtrusive (emitted w w') = true.
Proof.
  apply (profile_load_settles Sample.target Profile.initial
           (Sample.world_of Profile.initial Sample.store
              [None; Some (Rejects Sample.boom)])).
  reflexivity.
Defined.

(** X15.  Without a target in the route the load of a profile does
    nothing at all: no request, no write.  An activation that starts with
    the loading flag up, as the first one does, therefore ends on the
    spinner, whatever the store holds and whatever the calls do. *)
Theorem route_without_target_spins
  (userId : option string) (w : world Profile.state) :
  truthy userId = false ->
  (forall render, Profile.fetchProfile userId render w = (Normal tt, w))
  /\ (Profile.isLoading (ui w) = true ->
      ProfileView.view userId (ui (fire (Profile.effect userId) w))
      = ProfileView.Spinner).
Proof.
  intros Hroute. split.
  - intros render. unfold Profile.fetchProfile. now rewrite Hroute.
  - unfold_profile. rewrite Hroute. unfold_calls. unfold ProfileView.view.
    destruct w as [s [[user|] ? ? ? ? ? ?] n l]; cbn; intros Hloading;
      by_faults; rewrite ?Hloading; reflexivity.
Qed.

Lemma route_without_target_spins_witness :
  let w := Sample.world_of Profile.initial Sample.store [] in
  Profile.fetchProfile None Profile.initial w = (Normal tt, w)
  /\ ProfileView.view None (ui (fire (Profile.effect None) w))
     = ProfileView.Spinner.
Proof.
  destruct (route_without_target_spins None
              (Sample.world_of Profile.initial Sample.store []) eq_refl)
    as [Hload Hview].
  split; [apply Hload | apply Hview; reflexivity].
Defined.



(** X17.  An activation on a target that does not have exactly one
    profile row, with a session and no fault on the way, ends on the notice
    that the profile was not found, under the bar of whoever the view found
    as viewer. *)
Theorem missing_profile_is_not_found
  (target : string) (s : Session) (w : world Profile.state) :
  truthy_string target = true ->
  session (remote w) = Some s ->
  List.length (profiles_of target (remote w)) <> 1 ->
  net w = [] ->
  let w' := fire (Profile.effect (Some target)) w in
  ProfileView.view (Some target) (ui w')
  = ProfileView.NotFound (Profile.currentUser (ui w'))
  /\ existsb is_toast_error (emitted w w') = false.
Proof.
  intros Htarget Hsession Hmissing Hnet.
  unfold profiles_of in *. unfold_profile.
  simpl truthy. rewrite Htarget.
  unfold_calls. unfold ProfileView.view.
  destruct w as [u r n l]. simpl in Hsession, Hmissing, Hnet. subst n. cbn.
  rewrite Hsession. cbn.
  destruct (filter (fun p => String.eqb (ProfileRow.id p) target)
              (profiles r)) as [|p [|q rows]] eqn:Hrows;
    try (now destruct Hmissing).
  all: destruct (Profile.currentUser u); cbn; rewrite ?Hrows; cbn;
    flatten_log; rewrite skipn_length_app; split; reflexivity.
Qed.

Lemma missing_profile_is_not_found_witness :
  let w := Sample.world_of Profile.initial Sample.store [] in
  let w' := fire (Profile.effect (Some "zoe"%string)) w in
  ProfileView.view (Some "zoe"%string) (ui w')
  = ProfileView.NotFound (Profile.currentUser (ui w'))
  /\ existsb is_toast_error (emitted w w') = false.
Proof.
  apply (missing_profile_is_not_found "zoe" {| session_user_id := "alice" |}
           (Sample.world_of Profile.initial Sample.store [])).
  - reflexivity.
  - reflexivity.
  - simpl. discriminate.
  - reflexivity.
Defined.

(** X18.  While the view holds no viewer, a render with a target shows the
    follow control all the same, and the handler behind it does nothing: no
    request, no notification, no write. *)
Theorem follow_without_viewer_does_nothing
  (userId : option string) (w : world Profile.state) :
  Profile.currentUser (ui w) = None ->
  (userId <> None -> Profile.shows_follow userId (ui w) = true)
  /\ Profile.handleFollow userId (ui w) w = (Normal tt, w).
Proof.
  intros Hviewer. unfold Profile.shows_follow, Profile.handleFollow.
  rewrite Hviewer. split; [| reflexivity].
  destruct userId; [reflexivity | intros H; now destruct H].
Qed.

Lemma follow_without_viewer_does_nothing_witness :
  let w := Sample.world_of Profile.initial Sample.store [] in
  Profile.shows_follow Sample.target (ui w) = true
  /\ Profile.handleFollow Sample.target (ui w) w = (Normal tt, w).
Proof.
  destruct (follow_without_viewer_does_nothing Sample.target
              (Sample.world_of Profile.initial Sample.store []) eq_refl)
    as [Hshown Hnothing].
  split; [apply Hshown; discriminate | exact Hnothing].
Defined.

(** The call of a follow toggle on a page that mirrors the store can only
    fail through the network. *)
Lemma agreed_follow_meets_no_store_error
  (target : string) (viewer : ProfileRow.t) (w : world Profile.state) :
  ProfileCalls.agrees (Some target) w ->
  Profile.currentUser (ui w) = Some viewer ->
  hd None (net w) = None ->
  ProfileCalls.follow_call (Some target) w = Some Succeeds.
Proof.
  intros [Hfollowing _] Hviewer Hnet.
  unfold ProfileCalls.follow_call, outcome_of.
  rewrite Hviewer in *. simpl narrowed in Hfollowing.
  destruct (net w) as [|[f|] n]; simpl in Hnet; try discriminate;
    destruct (Profile.isFollowing (ui w)); simpl; try reflexivity;
    unfold Store.follows_insert; rewrite <- Hfollowing; reflexivity.
Qed.

(** What a follow toggle whose call succeeds tells the user. *)
Lemma handleFollow_announces
  (userId : option string) (viewer : ProfileRow.t)
  (w : world Profile.state) :
  Profile.currentUser (ui w) = Some viewer ->
  ProfileCalls.follow_call userId w = Some Succeeds ->
  emitted w (fire (Profile.handleFollow userId) w)
  = if Profile.isFollowing (ui w)
    then [Request (FollowsDelete (ProfileRow.id viewer) userId);
          ToastSuccess "Unfollowed"]
    else [Request (FollowsInsert (ProfileRow.id viewer) userId);
          ToastSuccess "Following!"].
Proof.
  intros Hviewer. unfold_profile. rewrite Hviewer. unfold_calls.
  unfold Store.follows_insert.
  destruct w as [u r n l]; cbn.
  destruct (Profile.isFollowing u); destruct userId as [target|]; cbn;
    destruct n as [|[[e|e]|] n]; cbn; try discriminate;
    try destruct (existsb _ (follows r)); cbn; try discriminate;
    intros _; flatten_log; apply skipn_length_app.
Qed.

(** X19.  A page that mirrors a store with one row per follow, a viewer,
    a target and no fault of the network: the call of the follow toggle
    succeeds, the follow of the viewer is in the store afterwards exactly
    when it was not before, the page mirrors the store again, and the toggle
    is announced as "Following!" or "Unfollowed" after its one request. *)
Theorem agreed_follow_toggle
  (target : string) (viewer : ProfileRow.t) (w : world Profile.state) :
  ProfileCalls.agrees (Some target) w ->
  NoDup (follows (remote w)) ->
  Profile.currentUser (ui w) = Some viewer ->
  hd None (net w) = None ->
  let w' := fire (Profile.handleFollow (Some target)) w in
  let mine := Store.follow_is (ProfileRow.id viewer) target in
  ProfileCalls.follow_call (Some target) w = Some Succeeds
  /\ existsb mine (follows (remote w'))
     = negb (existsb mine (follows (remote w)))
  /\ ProfileCalls.agrees (Some target) w'
  /\ NoDup (follows (remote w'))
  /\ emitted w w'
     = if Profile.isFollowing (ui w)
       then [Request (FollowsDelete (ProfileRow.id viewer) (Some target));
             ToastSuccess "Unfollowed"]
       else [Request (FollowsInsert (ProfileRow.id viewer) (Some target));
             ToastSuccess "Following!"].
Proof.
  intros Hagrees Hnodup Hviewer Hnet w' mine.
  pose proof (agreed_follow_meets_no_store_error target viewer w
                Hagrees Hviewer Hnet) as Hcall.
  destruct (handleFollow_keeps_agreement (Some target) w
              Hagrees Hnodup Hcall) as [Hagrees' Hnodup'].
  destruct (handleFollow_resolved (Some target) w (or_introl Hcall))
    as (Hflip & _).
  destruct (handleFollow_store (Some target) w Hcall)
    as (viewer' & target' & Hviewer1 & _ & Hviewer' & _).
  fold w' in Hagrees', Hnodup', Hflip, Hviewer'.
  split; [exact Hcall |].
  split; [| split; [exact Hagrees' | split; [exact Hnodup' |]]].
  - destruct Hagrees as [Hfollowing _]. destruct Hagrees' as [Hfollowing' _].
    rewrite Hviewer in Hfollowing. rewrite Hviewer1 in Hviewer.
    injection Hviewer as ->. rewrite Hviewer' in Hfollowing'.
    simpl narrowed in *. unfold mine.
    now rewrite <- Hfollowing', <- Hfollowing.
  - now apply handleFollow_announces.
Qed.

Lemma agreed_follow_toggle_witness :
  let w := Sample.world_of Sample.bobs_page Sample.store [] in
  let w' := fire (Profile.handleFollow Sample.target) w in
  ProfileCalls.follow_call Sample.target w = Some Succeeds
  /\ existsb (Store.follow_is "alice" "bob") (follows (remote w'))
     = negb (existsb (Store.follow_is "alice" "bob") (follows (remote w)))
  /\ ProfileCalls.agrees Sample.target w'
  /\ NoDup (follows (remote w'))
  /\ emitted w w'
     = [Request (FollowsDelete "alice" Sample.target);
        ToastSuccess "Unfollowed"].
Proof.
  apply (agreed_follow_toggle "bob" Sample.alice
           (Sample.world_of Sample.bobs_page Sample.store [])).
  - split; reflexivity.
  - repeat constructor; simpl; intuition discriminate.
  - reflexivity.
  - reflexivity.
Defined.

(** ** Deleting and reloading *)

Lemma insert_by_in {A} (key : A -> nat) (a x : A) (l : list A) :
  In x (Store.insert_by key a l) <-> x = a \/ In x l.
Proof.
  induction l as [|b l IH]; simpl; [intuition |].
  destruct (Nat.leb (key a) (key b)); simpl; rewrite ?IH; intuition.
Qed.

(** An ordered read returns the rows it was given, and no other. *)
Lemma descending_in {A} (key : A -> nat) (x : A) (l : list A) :
  In x (Store.descending key l) <-> In x l.
Proof.
  unfold Store.descending, Store.ascending. rewrite <- in_rev.
  induction l as [|a l IH]; simpl; [tauto |].
  rewrite insert_by_in, IH. intuition.
Qed.

(** X20.  Delete, then reload: once the deletion of a card has succeeded,
    the next reload of the Feed, with no fault on the way, lists no post
    with the id of the card, and lists every other post of the store. *)
Theorem deleted_is_not_listed
  (post : joined PostRow.t) (w : world PostCard.state) (feed : Feed.state) :
  PostCardCalls.delete_call post w = Some Succeeds ->
  let w' := fire (fun _ => PostCard.handleDelete post) w in
  let reloaded :=
    fire (fun _ => Feed.fetchPosts)
      {| ui := feed; remote := remote w'; net := []; log := [] |} in
  forall p : PostRow.t,
    In p (map fst (Feed.posts (ui reloaded)))
    <-> In p (posts (remote w))
        /\ String.eqb (PostRow.id p) (PostRow.id (fst post)) = false.
Proof.
  intros Hcall w' reloaded p.
  assert (Hstore :
            posts (remote w')
            = filter
                (fun q =>
                   negb (String.eqb (PostRow.id q) (PostRow.id (fst post))))
                (posts (remote w))).
  { revert Hcall. subst w'. unfold_card. unfold_calls.
    destruct w as [s r n l]; cbn.
    destruct n as [|[[e|e]|] n]; cbn; try discriminate; reflexivity. }
  subst reloaded. unfold fire, Feed.fetchPosts, Feed.setIsLoading,
    Feed.setPosts.
  unfold_calls. cbn. rewrite map_map. simpl. rewrite map_id.
  rewrite descending_in, Hstore, filter_In, negb_true_iff. tauto.
Qed.

Lemma deleted_is_not_listed_witness :
  let w := Sample.world_of Sample.card Sample.store [] in
  let w' := fire (fun _ => PostCard.handleDelete Sample.bobs_post) w in
  let reloaded :=
    fire (fun _ => Feed.fetchPosts)
      {| ui := Feed.initial; remote := remote w'; net := []; log := [] |} in
  In (fst Sample.bobs_post) (map fst (Feed.posts (ui reloaded)))
  <-> In (fst Sample.bobs_post) (posts (remote w))
      /\ String.eqb (PostRow.id (fst Sample.bobs_post)) "p1" = false.
Proof.
  exact (deleted_is_not_listed Sample.bobs_post
           (Sample.world_of Sample.card Sample.store []) Feed.initial
           eq_refl (fst Sample.bobs_post)).
Defined.
